(** * Remote job orchestration over SSH: a model of [ssh_manager.py]

    The development embeds the [SSHManager] class of [src/ssh_manager.py]:
    session handling ([connect], [disconnect]), remote command execution and
    file transfer, the job launcher, the local job registry (one JSON file
    per job under [remote_jobs/]) and the polling status tracker.  It also
    embeds the retrieval of a job's artifacts, the [AutodlSSHManager]
    subclass, the process-wide manager of the module ([get_ssh_manager],
    [connect_ssh], [disconnect_ssh]) and the [ssh_status] endpoint of
    [src/api.py].

    Conventions of the model:
    - Python [str] is [string]; a character is a code point below 256.
    - A Python [float] is represented by the text [json.dumps] prints for
      it (see [JFloat]); arithmetic on floats is not modelled.
    - [json.dumps] and [json.loads] are modelled by a printer and a
      decoder on [string]; the decoder is proved to invert the printer.
    - The local disk is a finite map from path text to a file or a
      directory; paths are not resolved ([..], links).
    - The remote host, the SSH library and the temporary-file name generator
      are an environment [Env] whose answers may depend on everything that
      happened so far; every theorem quantifies over all environments.
    - [close()] of the library's client objects does not raise.
    - [logger] calls are not part of the modelled state. *)

From Stdlib Require Import ZArith Ascii String List Bool Lia.
From Stdlib Require Import DecimalString DecimalZ DecimalPos DecimalNat.
From stdpp Require Import base option gmap strings.

Local Open Scope string_scope.
Local Open Scope Z_scope.

Set Warnings "-register-all".

(** ** Text helpers: the [str] methods the source uses *)

Module Text.

Definition dq : ascii := "034"%char.
Definition nl : ascii := "010"%char.
Definition cr : ascii := "013"%char.
Definition tab : ascii := "009"%char.
Definition bs : ascii := "008"%char.
Definition ff : ascii := "012"%char.
Definition bsl : ascii := "\"%char.

Definition code (c : ascii) : nat := nat_of_ascii c.

(** [prefix p s]: [s.startswith(p)]. *)
Fixpoint starts_with (p s : string) : bool :=
  match p, s with
  | EmptyString, _ => true
  | String a p', String b s' => if Ascii.eqb a b then starts_with p' s' else false
  | String _ _, EmptyString => false
  end.

(** [needle in hay]. *)
Fixpoint contains (needle hay : string) : bool :=
  if starts_with needle hay then true
  else match hay with
       | EmptyString => false
       | String _ hay' => contains needle hay'
       end.

(** [str.lower()] on code points below 256: A-Z and the Latin-1 capitals
    U+00C0..U+00DE (except the multiplication sign U+00D7) move by 32. *)
Definition lower_char (c : ascii) : ascii :=
  let n := code c in
  if ((65 <=? n) && (n <=? 90))%nat then ascii_of_nat (n + 32)
  else if ((192 <=? n) && (n <=? 222) && negb (n =? 215))%nat then ascii_of_nat (n + 32)
  else c.

Fixpoint lower (s : string) : string :=
  match s with
  | EmptyString => EmptyString
  | String c s' => String (lower_char c) (lower s')
  end.

(** [str.isspace()] per character, code points below 256. *)
Definition is_space (c : ascii) : bool :=
  let n := code c in
  (((9 <=? n) && (n <=? 13)) || ((28 <=? n) && (n <=? 32)) || (n =? 133) || (n =? 160))%nat.

Fixpoint lstrip (s : string) : string :=
  match s with
  | String c s' => if is_space c then lstrip s' else s
  | EmptyString => EmptyString
  end.

Fixpoint rstrip (s : string) : string :=
  match s with
  | EmptyString => EmptyString
  | String c s' =>
      match rstrip s' with
      | EmptyString => if is_space c then EmptyString else String c EmptyString
      | r => String c r
      end
  end.

(** [str.strip()]. *)
Definition strip (s : string) : string := rstrip (lstrip s).

Fixpoint repeat_char (c : ascii) (n : nat) : string :=
  match n with
  | O => EmptyString
  | S n' => String c (repeat_char c n')
  end.

Fixpoint concat_all (l : list string) : string :=
  match l with
  | nil => EmptyString
  | x :: l' => x +:+ concat_all l'
  end.

(** [sep.join(l)]. *)
Fixpoint join (sep : string) (l : list string) : string :=
  match l with
  | nil => EmptyString
  | x :: nil => x
  | x :: l' => x +:+ sep +:+ join sep l'
  end.

(** [str.split(sep)] for a one-character separator. *)
Fixpoint split_on (sep : ascii) (s : string) : list string :=
  match s with
  | EmptyString => EmptyString :: nil
  | String c s' =>
      if Ascii.eqb c sep then EmptyString :: split_on sep s'
      else match split_on sep s' with
           | nil => String c EmptyString :: nil
           | w :: ws => String c w :: ws
           end
  end.

(** Decimal text of an integer, as [str(int)] prints it. *)
Definition of_Z (z : Z) : string := NilZero.string_of_int (Z.to_int z).

End Text.

(** ** JSON values, [json.dumps] and [json.loads] *)

Module Json.
Import Text.

(** What [json.load] can return and [json.dump] accepts here.  A dict is an
    association list in insertion order; [JFloat t] is the float that
    [json.dumps] prints as [t]. *)
Inductive json : Type :=
  | JNull
  | JBool (b : bool)
  | JInt (n : Z)
  | JFloat (t : string)
  | JStr (s : string)
  | JList (l : list json)
  | JObj (kvs : list (string * json)).

(** [d[k]] on a dict. *)
Fixpoint obj_get (k : string) (kvs : list (string * json)) : option json :=
  match kvs with
  | nil => None
  | (k', v) :: rest => if String.eqb k k' then Some v else obj_get k rest
  end.

(** [d[k] = v]: an existing key keeps its place and takes the new value, a
    new key goes last. *)
Fixpoint dict_set (k : string) (v : json) (d : list (string * json)) : list (string * json) :=
  match d with
  | nil => (k, v) :: nil
  | (k', v') :: d' => if String.eqb k k' then (k, v) :: d' else (k', v') :: dict_set k v d'
  end.

(** [dict(pairs)], as the decoder builds an object from its members. *)
Definition dict_of_pairs (kvs : list (string * json)) : list (string * json) :=
  fold_left (fun d kv => dict_set (fst kv) (snd kv) d) kvs nil.

(** *** Printing: [json.dumps(v, indent=ind)] with [ensure_ascii] *)

Definition hex_digit (n : nat) : ascii :=
  match n with
  | 0 => "0" | 1 => "1" | 2 => "2" | 3 => "3" | 4 => "4" | 5 => "5" | 6 => "6"
  | 7 => "7" | 8 => "8" | 9 => "9" | 10 => "a" | 11 => "b" | 12 => "c"
  | 13 => "d" | 14 => "e" | _ => "f"
  end%nat%char.

Definition escape_char (c : ascii) : string :=
  if Ascii.eqb c dq then String bsl (String dq "")
  else if Ascii.eqb c bsl then String bsl (String bsl "")
  else if Ascii.eqb c nl then String bsl "n"
  else if Ascii.eqb c cr then String bsl "r"
  else if Ascii.eqb c tab then String bsl "t"
  else if Ascii.eqb c bs then String bsl "b"
  else if Ascii.eqb c ff then String bsl "f"
  else if ((32 <=? code c) && (code c <=? 126))%nat then String c ""
  else String bsl (String "u" (String "0" (String "0"
         (String (hex_digit (code c / 16)) (String (hex_digit (code c mod 16)) ""))))).

Fixpoint escape_body (s : string) : string :=
  match s with
  | EmptyString => EmptyString
  | String c s' => escape_char c +:+ escape_body s'
  end.

Definition encode_string (s : string) : string :=
  String dq (escape_body s +:+ String dq "").

(** Line break followed by the indentation of nesting level [lvl]. *)
Definition newline_indent (ind lvl : nat) : string :=
  String nl (repeat_char " " (ind * lvl)).

Fixpoint dumps_at (ind lvl : nat) (v : json) {struct v} : string :=
  match v with
  | JNull => "null"
  | JBool true => "true"
  | JBool false => "false"
  | JInt n => of_Z n
  | JFloat t => t
  | JStr s => encode_string s
  | JList nil => "[]"
  | JList (x :: xs) =>
      "[" +:+ newline_indent ind (S lvl) +:+ dumps_at ind (S lvl) x
      +:+ concat_all
            (map (fun y => "," +:+ newline_indent ind (S lvl) +:+ dumps_at ind (S lvl) y) xs)
      +:+ newline_indent ind lvl +:+ "]"
  | JObj nil => "{}"
  | JObj (kx :: kvs) =>
      "{" +:+ newline_indent ind (S lvl) +:+ encode_string (fst kx) +:+ ": "
      +:+ dumps_at ind (S lvl) (snd kx)
      +:+ concat_all
            (map (fun ky => "," +:+ newline_indent ind (S lvl) +:+ encode_string (fst ky)
                            +:+ ": " +:+ dumps_at ind (S lvl) (snd ky)) kvs)
      +:+ newline_indent ind lvl +:+ "}"
  end.

Definition dumps (ind : nat) (v : json) : string := dumps_at ind 0 v.

(** *** Parsing: [json.loads] *)

Definition is_ws (c : ascii) : bool :=
  Ascii.eqb c " " || Ascii.eqb c tab || Ascii.eqb c nl || Ascii.eqb c cr.

Fixpoint skip_ws (s : string) : string :=
  match s with
  | String c s' => if is_ws c then skip_ws s' else s
  | EmptyString => EmptyString
  end.

Definition is_digit (c : ascii) : bool := ((48 <=? code c) && (code c <=? 57))%nat.

Definition hex_value (c : ascii) : option nat :=
  let n := code c in
  if ((48 <=? n) && (n <=? 57))%nat then Some (n - 48)%nat
  else if ((97 <=? n) && (n <=? 102))%nat then Some (n - 87)%nat
  else if ((65 <=? n) && (n <=? 70))%nat then Some (n - 55)%nat
  else None.

(** The four hex digits of a [\u] escape; code points from 256 on lie
    outside the modelled alphabet and are refused. *)
Definition unescape_u (h1 h2 h3 h4 : ascii) : option ascii :=
  match hex_value h1, hex_value h2, hex_value h3, hex_value h4 with
  | Some a, Some b, Some c, Some d =>
      if ((a =? 0) && (b =? 0))%nat then Some (ascii_of_nat (c * 16 + d)) else None
  | _, _, _, _ => None
  end.

(** The body of a string literal, after its opening quote (strict mode:
    a raw control character is an error). *)
Fixpoint scan_string (s : string) : option (string * string) :=
  match s with
  | EmptyString => None
  | String c r =>
      if Ascii.eqb c dq then Some (EmptyString, r)
      else if Ascii.eqb c bsl then
        match r with
        | EmptyString => None
        | String e r' =>
            let cont (x : ascii) (k : option (string * string)) :=
              match k with
              | Some (body, rest) => Some (String x body, rest)
              | None => None
              end in
            if Ascii.eqb e dq then cont dq (scan_string r')
            else if Ascii.eqb e bsl then cont bsl (scan_string r')
            else if Ascii.eqb e "/" then cont "/"%char (scan_string r')
            else if Ascii.eqb e "b" then cont bs (scan_string r')
            else if Ascii.eqb e "f" then cont ff (scan_string r')
            else if Ascii.eqb e "n" then cont nl (scan_string r')
            else if Ascii.eqb e "r" then cont cr (scan_string r')
            else if Ascii.eqb e "t" then cont tab (scan_string r')
            else if Ascii.eqb e "u" then
              match r' with
              | String h1 (String h2 (String h3 (String h4 r''))) =>
                  match unescape_u h1 h2 h3 h4 with
                  | Some x => cont x (scan_string r'')
                  | None => None
                  end
              | _ => None
              end
            else None
        end
      else if (code c <? 32)%nat then None
      else match scan_string r with
           | Some (body, rest) => Some (String c body, rest)
           | None => None
           end
  end.

(** The longest prefix of decimal digits, and what follows it. *)
Fixpoint span_digits (s : string) : string * string :=
  match s with
  | String c s' =>
      if is_digit c then let (d, r) := span_digits s' in (String c d, r)
      else (EmptyString, s)
  | EmptyString => (EmptyString, EmptyString)
  end.

Fixpoint digits_value (acc : Z) (s : string) : Z :=
  match s with
  | EmptyString => acc
  | String c s' => digits_value (acc * 10 + Z.of_nat (code c - 48)) s'
  end.

(** The integer part of a number token: a single 0, or a digit run that
    starts with another digit. *)
Definition scan_int (s : string) : option (string * string) :=
  match s with
  | EmptyString => None
  | String d r =>
      if is_digit d then
        if Ascii.eqb d "0" then Some ("0", r) else Some (span_digits s)
      else None
  end.

(** The optional fraction: a dot and at least one digit. *)
Definition scan_frac (s : string) : string * string :=
  match s with
  | String "." r =>
      let (fd, r') := span_digits r in
      match fd with
      | EmptyString => (EmptyString, s)
      | _ => (String "." fd, r')
      end
  | _ => (EmptyString, s)
  end.

(** The optional exponent: e or E, an optional sign, at least one digit. *)
Definition scan_exp (s : string) : string * string :=
  match s with
  | String e r =>
      if Ascii.eqb e "e" || Ascii.eqb e "E" then
        let (sg, r') := match r with
                        | String "+" q => ("+", q)
                        | String "-" q => ("-", q)
                        | _ => (EmptyString, r)
                        end in
        let (ed, r'') := span_digits r' in
        match ed with
        | EmptyString => (EmptyString, s)
        | _ => (String e (sg +:+ ed), r'')
        end
      else (EmptyString, s)
  | EmptyString => (EmptyString, s)
  end.

(** Number token, as the decoder's pattern reads it: an optional minus,
    the integer part, an optional fraction, an optional exponent.  Without
    fraction and exponent the value is an [int], else a [float]. *)
Definition scan_number (s : string) : option (json * string) :=
  let (neg, s1) := match s with
                   | String "-" r => (true, r)
                   | _ => (false, s)
                   end in
  match scan_int s1 with
  | None => None
  | Some (ip, r1) =>
      let (frac, r2) := scan_frac r1 in
      let (ex, r3) := scan_exp r2 in
      match frac, ex with
      | EmptyString, EmptyString =>
          Some (JInt (if neg then - digits_value 0 ip else digits_value 0 ip), r3)
      | _, _ => Some (JFloat ((if neg then "-" else "") +:+ ip +:+ frac +:+ ex), r3)
      end
  end.

(** [s] minus the prefix [p], when it starts with it. *)
Fixpoint drop_prefix (p s : string) : option string :=
  match p, s with
  | EmptyString, _ => Some s
  | String a p', String b s' => if Ascii.eqb a b then drop_prefix p' s' else None
  | String _ _, EmptyString => None
  end.

(** [scan_once]: one value at the head of [s] (no leading whitespace), with
    the text left after it.  [parse_items] and [parse_members] read the
    rest of an array or object once its first element is known to exist. *)
Fixpoint parse_value (fuel : nat) (s : string) : option (json * string) :=
  match fuel with
  | O => None
  | S f =>
      match s with
      | EmptyString => None
      | String c r =>
          if Ascii.eqb c dq then
            match scan_string r with
            | Some (body, rest) => Some (JStr body, rest)
            | None => None
            end
          else if Ascii.eqb c "{" then
            match skip_ws r with
            | String "}" rest => Some (JObj nil, rest)
            | r1 =>
                match parse_members f r1 with
                | Some (kvs, rest) => Some (JObj (dict_of_pairs kvs), rest)
                | None => None
                end
            end
          else if Ascii.eqb c "[" then
            match skip_ws r with
            | String "]" rest => Some (JList nil, rest)
            | r1 =>
                match parse_items f r1 with
                | Some (l, rest) => Some (JList l, rest)
                | None => None
                end
            end
          else
            match drop_prefix "null" s, drop_prefix "true" s, drop_prefix "false" s with
            | Some rest, _, _ => Some (JNull, rest)
            | _, Some rest, _ => Some (JBool true, rest)
            | _, _, Some rest => Some (JBool false, rest)
            | None, None, None =>
                match scan_number s with
                | Some res => Some res
                | None =>
                    match drop_prefix "NaN" s, drop_prefix "Infinity" s,
                          drop_prefix "-Infinity" s with
                    | Some rest, _, _ => Some (JFloat "NaN", rest)
                    | _, Some rest, _ => Some (JFloat "Infinity", rest)
                    | _, _, Some rest => Some (JFloat "-Infinity", rest)
                    | None, None, None => None
                    end
                end
            end
      end
  end
with parse_items (fuel : nat) (s : string) : option (list json * string) :=
  match fuel with
  | O => None
  | S f =>
      match parse_value f s with
      | None => None
      | Some (v, r) =>
          match skip_ws r with
          | String "]" rest => Some (v :: nil, rest)
          | String "," r1 =>
              match parse_items f (skip_ws r1) with
              | Some (l, rest) => Some (v :: l, rest)
              | None => None
              end
          | _ => None
          end
      end
  end
with parse_members (fuel : nat) (s : string) : option (list (string * json) * string) :=
  match fuel with
  | O => None
  | S f =>
      match s with
      | String c r =>
          if Ascii.eqb c dq then
            match scan_string r with
            | None => None
            | Some (k, r1) =>
                match skip_ws r1 with
                | String ":" r2 =>
                    match parse_value f (skip_ws r2) with
                    | None => None
                    | Some (v, r3) =>
                        match skip_ws r3 with
                        | String "}" rest => Some ((k, v) :: nil, rest)
                        | String "," r4 =>
                            match parse_members f (skip_ws r4) with
                            | Some (kvs, rest) => Some ((k, v) :: kvs, rest)
                            | None => None
                            end
                        | _ => None
                        end
                    end
                | _ => None
                end
            end
          else None
      | EmptyString => None
      end
  end.

(** [json.loads(s)]: leading and trailing whitespace is allowed, anything
    else after the value is an error ([None]). *)
Definition loads (s : string) : option json :=
  let s0 := skip_ws s in
  match parse_value (S (String.length s0)) s0 with
  | Some (v, rest) =>
      match skip_ws rest with
      | EmptyString => Some v
      | _ => None
      end
  | None => None
  end.

(** *** Notions used to state the round trip *)

(** A text that cannot continue a number token: it is empty or starts
    with something other than a digit, a dot, an exponent mark or a sign. *)
Definition stops (rest : string) : bool :=
  match rest with
  | EmptyString => true
  | String c _ => negb (is_digit c || Ascii.eqb c "." || Ascii.eqb c "e" || Ascii.eqb c "E"
                        || Ascii.eqb c "+" || Ascii.eqb c "-")
  end.

(** The texts [json.dumps] prints for a float: a number token with a
    fraction or an exponent, or one of the three special names. *)
Definition float_ok (t : string) : bool :=
  match scan_number t with
  | Some (JFloat t', EmptyString) => String.eqb t t'
  | _ => false
  end || String.eqb t "NaN" || String.eqb t "Infinity" || String.eqb t "-Infinity".

(** The keys of a dict are pairwise different. *)
Fixpoint distinct (l : list string) : bool :=
  match l with
  | nil => true
  | k :: l' => negb (existsb (String.eqb k) l') && distinct l'
  end.

(** Values as Python builds them: float texts are float texts and dict
    keys are distinct. *)
Fixpoint wf (v : json) : bool :=
  match v with
  | JFloat t => float_ok t
  | JList l => forallb wf l
  | JObj kvs => forallb (fun kv => wf (snd kv)) kvs && distinct (map fst kvs)
  | _ => true
  end.

(** Recursion depth the decoder needs for a value. *)
Fixpoint weight (v : json) : nat :=
  match v with
  | JList l => S (list_sum (map (fun x => S (weight x)) l))
  | JObj kvs => S (list_sum (map (fun kv => S (weight (snd kv))) kvs))
  | _ => 1
  end.

(** A character that can start a value: no whitespace and no closing
    bracket. *)
Definition vstart (c : ascii) : bool := negb (is_ws c) && negb (Ascii.eqb c "]").

(** Decoding the text of [v], whatever follows it, gives [v] back. *)
Definition roundtrips (v : json) : Prop :=
  forall ind lvl rest fuel, stops rest = true -> (weight v <= fuel)%nat ->
    parse_value fuel (dumps_at ind lvl v +:+ rest) = Some (v, rest).

End Json.

(** ** Python values: truthiness, [str] and [repr], exceptions *)

Module Py.
Import Text Json.

Inductive exn_kind : Type :=
  | ConnectionError | FileNotFoundError | FileExistsError | NotADirectoryError
  | IsADirectoryError | RuntimeError | ValueError | KeyError | TypeError
  | ImportError | NameError
  | LibraryError (name : string).

(** An exception: its class and [str(exc)]. *)
Record exn : Type := Exn { exn_kind_of : exn_kind; exn_text : string }.

Inductive Result (A : Type) : Type :=
  | Ok (a : A)
  | Raise (e : exn).
Arguments Ok {A} a.
Arguments Raise {A} e.

(** A float text denotes zero when no digit of its mantissa is non-zero. *)
Fixpoint float_is_zero (t : string) : bool :=
  match t with
  | EmptyString => true
  | String c t' =>
      if Ascii.eqb c "e" || Ascii.eqb c "E" then true
      else if Ascii.eqb c "-" || Ascii.eqb c "." || Ascii.eqb c "0" then float_is_zero t'
      else false
  end.

(** [bool(v)]. *)
Definition truthy (v : json) : bool :=
  match v with
  | JNull => false
  | JBool b => b
  | JInt n => negb (n =? 0)
  | JFloat t => negb (float_is_zero t)
  | JStr s => negb (String.eqb s "")
  | JList l => match l with nil => false | _ => true end
  | JObj kvs => match kvs with nil => false | _ => true end
  end.

Definition truthy_opt (o : option string) : bool :=
  match o with
  | Some s => negb (String.eqb s "")
  | None => false
  end.

Definition hex2 (n : nat) : string :=
  String (hex_digit (n / 16)) (String (hex_digit (n mod 16)) "").

Definition repr_char (q c : ascii) : string :=
  let n := code c in
  if Ascii.eqb c bsl then String bsl (String bsl "")
  else if Ascii.eqb c q then String bsl (String q "")
  else if Ascii.eqb c nl then String bsl "n"
  else if Ascii.eqb c cr then String bsl "r"
  else if Ascii.eqb c tab then String bsl "t"
  else if ((n <? 32) || ((127 <=? n) && (n <=? 160)) || (n =? 173))%nat
       then String bsl (String "x" (hex2 n))
  else String c "".

Fixpoint repr_body (q : ascii) (s : string) : string :=
  match s with
  | EmptyString => EmptyString
  | String c s' => repr_char q c +:+ repr_body q s'
  end.

(** [repr(s)] of a [str]: single quotes unless the text has a single and
    no double quote. *)
Definition repr_str (s : string) : string :=
  let q := if contains "'" s && negb (contains (String dq "") s) then dq else "'"%char in
  String q (repr_body q s +:+ String q "").

Definition float_str (t : string) : string :=
  if String.eqb t "NaN" then "nan"
  else if String.eqb t "Infinity" then "inf"
  else if String.eqb t "-Infinity" then "-inf"
  else t.

(** [repr(v)]. *)
Fixpoint repr (v : json) : string :=
  match v with
  | JNull => "None"
  | JBool true => "True"
  | JBool false => "False"
  | JInt n => of_Z n
  | JFloat t => float_str t
  | JStr s => repr_str s
  | JList l => "[" +:+ join ", " (map repr l) +:+ "]"
  | JObj kvs =>
      "{" +:+ join ", " (map (fun kv => repr_str (fst kv) +:+ ": " +:+ repr (snd kv)) kvs) +:+ "}"
  end.

(** [str(v)], which an f-string applies to an interpolated value. *)
Definition str (v : json) : string :=
  match v with
  | JStr s => s
  | _ => repr v
  end.

(** [v[k]] for a [str] key [k]. *)
Definition getitem (v : json) (k : string) : Result json :=
  match v with
  | JObj kvs =>
      match obj_get k kvs with
      | Some w => Ok w
      | None => Raise (Exn KeyError (repr_str k))
      end
  | JStr _ => Raise (Exn TypeError "string indices must be integers, not 'str'")
  | JList _ => Raise (Exn TypeError "list indices must be integers or slices, not str")
  | JNull => Raise (Exn TypeError "'NoneType' object is not subscriptable")
  | JBool _ => Raise (Exn TypeError "'bool' object is not subscriptable")
  | JInt _ => Raise (Exn TypeError "'int' object is not subscriptable")
  | JFloat _ => Raise (Exn TypeError "'float' object is not subscriptable")
  end.

End Py.

(** ** [pathlib] paths and the local file system *)

Module Fs.
Import Text Py.

(** A pure POSIX path: its root ([""], ["/"] or ["//"]) and its parts.
    Paths are not resolved: [..] stays a part, there are no links. *)
Record Path : Type := MkPath { root : string; parts : list string }.

Definition keep_part (p : string) : bool :=
  negb (String.eqb p "") && negb (String.eqb p ".").

(** [Path(s)]. *)
Definition path_of (s : string) : Path :=
  {| root := if starts_with "//" s && negb (starts_with "///" s) then "//"
             else if starts_with "/" s then "/" else "";
     parts := List.filter keep_part (split_on "/" s) |}.

(** [str(p)]. *)
Definition path_str (p : Path) : string :=
  match root p, parts p with
  | EmptyString, nil => "."
  | r, ps => r +:+ join "/" ps
  end.

(** [p / s]. *)
Definition path_join (p : Path) (s : string) : Path :=
  let q := path_of s in
  match root q with
  | EmptyString => {| root := root p; parts := parts p ++ parts q |}
  | _ => q
  end.

(** [p.parent]. *)
Definition path_parent (p : Path) : Path :=
  {| root := root p; parts := removelast (parts p) |}.

Inductive node : Type :=
  | File (content : string)
  | Dir.

(** The local file system: what each path names.  The working directory
    and the roots are directories. *)
Definition is_anchor (p : Path) : bool :=
  match parts p with nil => true | _ => false end.

Definition path_exists (fs : gmap string node) (p : Path) : bool :=
  is_anchor p || match fs !! path_str p with Some _ => true | None => false end.

Definition is_dir (fs : gmap string node) (p : Path) : bool :=
  is_anchor p || match fs !! path_str p with Some Dir => true | _ => false end.

(** The error of creating an entry whose parent is not a directory. *)
Definition parent_error (fs : gmap string node) (p : Path) : exn :=
  if path_exists fs (path_parent p)
  then Exn NotADirectoryError ("[Errno 20] Not a directory: " +:+ repr_str (path_str p))
  else Exn FileNotFoundError ("[Errno 2] No such file or directory: " +:+ repr_str (path_str p)).

(** [p.mkdir(exist_ok=True)]. *)
Definition mkdir_exist_ok (fs : gmap string node) (p : Path) : Result (gmap string node) :=
  if is_anchor p then Ok fs
  else match fs !! path_str p with
       | Some Dir => Ok fs
       | Some (File _) =>
           Raise (Exn FileExistsError ("[Errno 17] File exists: " +:+ repr_str (path_str p)))
       | None =>
           if is_dir fs (path_parent p) then Ok (<[path_str p := Dir]> fs)
           else Raise (parent_error fs p)
       end.

(** [open(p, 'w')] followed by writing [content] and closing. *)
Definition write_file (fs : gmap string node) (p : Path) (content : string)
  : Result (gmap string node) :=
  if is_anchor p
  then Raise (Exn IsADirectoryError ("[Errno 21] Is a directory: " +:+ repr_str (path_str p)))
  else match fs !! path_str p with
       | Some Dir =>
           Raise (Exn IsADirectoryError ("[Errno 21] Is a directory: " +:+ repr_str (path_str p)))
       | _ =>
           if is_dir fs (path_parent p) then Ok (<[path_str p := File content]> fs)
           else Raise (parent_error fs p)
       end.

(** [open(p, 'r')] followed by reading everything. *)
Definition read_file (fs : gmap string node) (p : Path) : Result string :=
  if is_anchor p
  then Raise (Exn IsADirectoryError ("[Errno 21] Is a directory: " +:+ repr_str (path_str p)))
  else match fs !! path_str p with
       | Some (File c) => Ok c
       | Some Dir =>
           Raise (Exn IsADirectoryError ("[Errno 21] Is a directory: " +:+ repr_str (path_str p)))
       | None =>
           Raise (Exn FileNotFoundError ("[Errno 2] No such file or directory: " +:+ repr_str (path_str p)))
       end.

(** [os.unlink(name)]. *)
Definition unlink (fs : gmap string node) (name : string) : Result (gmap string node) :=
  match fs !! name with
  | Some (File _) => Ok (delete name fs)
  | Some Dir => Raise (Exn IsADirectoryError ("[Errno 21] Is a directory: " +:+ repr_str name))
  | None => Raise (Exn FileNotFoundError ("[Errno 2] No such file or directory: " +:+ repr_str name))
  end.

(** [tempfile.NamedTemporaryFile(mode='w', delete=False)], then writing
    [content] and closing: the candidate names are tried in order, a name
    already in use is skipped, and the file is created under the first
    free one. *)
Fixpoint mkstemp_write (fs : gmap string node) (candidates : list string) (content : string)
  : Result (string * gmap string node) :=
  match candidates with
  | nil => Raise (Exn FileExistsError "[Errno 17] No usable temporary file name found")
  | name :: rest =>
      let p := path_of name in
      let key := path_str p in
      if is_anchor p then mkstemp_write fs rest content
      else match fs !! key with
           | Some _ => mkstemp_write fs rest content
           | None =>
               if is_dir fs (path_parent p) then Ok (key, <[key := File content]> fs)
               else Raise (parent_error fs p)
           end
  end.

End Fs.

(** ** The SSH manager *)

Module Ssh.
Import Text Json Py Fs.

Record SSHConfig : Type := {
  hostname : string;
  port : Z;
  username : string;
  password : option string;
  key_filename : option string;
  key_password : option string;
  timeout : Z }.

Record TrainingConfig : Type := {
  model_id : string;
  role_file : string;
  batch_size : Z;
  epochs : Z;
  learning_rate : string;
  use_lora : bool;
  remote_workspace : string }.

(** [training_config.__dict__]. *)
Definition config_dict (tc : TrainingConfig) : json :=
  JObj (("model_id", JStr (model_id tc)) :: ("role_file", JStr (role_file tc))
        :: ("batch_size", JInt (batch_size tc)) :: ("epochs", JInt (epochs tc))
        :: ("learning_rate", JFloat (learning_rate tc)) :: ("use_lora", JBool (use_lora tc))
        :: ("remote_workspace", JStr (remote_workspace tc)) :: nil).

(** The manager object.  A client object is known by its identity: every
    [SSHClient()] and [SCPClient(...)] call makes a new one. *)
Record SSHManager : Type := {
  config : SSHConfig;
  ssh_client : option nat;
  scp_client : option nat }.

(** What the manager did to the outside, in order; an attempt is recorded
    whether or not it succeeded. *)
Inductive event : Type :=
  | EvConnect (client : nat) (with_password : bool)
  | EvExec (client : nat) (command : string) (tmo : Z)
  | EvPut (scp : nat) (local_path remote_path : string) (recursive : bool)
  | EvCloseScp (scp : nat)
  | EvCloseSsh (client : nat).

Record State : Type := {
  self : SSHManager;
  fs : gmap string node;
  trace : list event;
  next_obj : nat }.

Definition set_ssh_client (o : option nat) (s : State) : State :=
  {| self := {| config := config (self s); ssh_client := o; scp_client := scp_client (self s) |};
     fs := fs s; trace := trace s; next_obj := next_obj s |}.

Definition set_scp_client (o : option nat) (s : State) : State :=
  {| self := {| config := config (self s); ssh_client := ssh_client (self s); scp_client := o |};
     fs := fs s; trace := trace s; next_obj := next_obj s |}.

Definition set_fs (f : gmap string node) (s : State) : State :=
  {| self := self s; fs := f; trace := trace s; next_obj := next_obj s |}.

Definition log_event (e : event) (s : State) : State :=
  {| self := self s; fs := fs s; trace := trace s ++ e :: nil; next_obj := next_obj s |}.

Definition bump_obj (s : State) : State :=
  {| self := self s; fs := fs s; trace := trace s; next_obj := S (next_obj s) |}.

(** The world outside the program.  Each answer may depend on the whole
    state, hence on the history in [trace]. *)
Record Env : Type := {
  ssh_available : bool;
  lib_connect : State -> bool -> option exn;
  lib_exec : State -> string -> Z -> Result (Z * string * string);
  lib_put : State -> string -> string -> bool -> option exn;
  tmp_names : State -> list string }.

(** Computations that read and change the state and may raise. *)
Definition M (A : Type) : Type := State -> Result A * State.

Definition ret {A} (a : A) : M A := fun s => (Ok a, s).
Definition raise {A} (e : exn) : M A := fun s => (Raise e, s).
Definition bind {A B} (c : M A) (k : A -> M B) : M B :=
  fun s => match c s with
           | (Ok a, s') => k a s'
           | (Raise e, s') => (Raise e, s')
           end.
Definition get : M State := fun s => (Ok s, s).
Definition modify (f : State -> State) : M unit := fun s => (Ok tt, f s).
Definition lift {A} (r : Result A) : M A := fun s => (r, s).

(** [try: body except Exception as exc: handler exc]. *)
Definition try_except {A} (body : M A) (handler : exn -> M A) : M A :=
  fun s => match body s with
           | (Ok a, s') => (Ok a, s')
           | (Raise e, s') => handler e s'
           end.

(** [try: body finally: cleanup]. *)
Definition try_finally {A} (body : M A) (cleanup : M unit) : M A :=
  fun s => match body s with
           | (r, s') =>
               match cleanup s' with
               | (Ok _, s'') => (r, s'')
               | (Raise e, s'') => (Raise e, s'')
               end
           end.

Declare Scope py_scope.
Delimit Scope py_scope with py.
Notation "x <- c ;; k" := (bind c (fun x => k))
  (at level 100, c at next level, right associativity) : py_scope.
Notation "c ;;; k" := (bind c (fun _ => k))
  (at level 100, k at level 200, right associativity) : py_scope.
Local Open Scope py_scope.

Section Manager.

Variable env : Env.

(** [self._create_training_script], looked up on [self]: the launcher is
    stated for any script generator; [SSHManager]'s own one is
    [_create_training_script] below. *)
Variable create_script : TrainingConfig -> Result string.

(** [SSHClient()]: a new client object, or [ImportError] from the stub
    class when paramiko is missing. *)
Definition new_SSHClient : M nat :=
  if ssh_available env then
    s <- get ;; modify bump_obj ;;; ret (next_obj s)
  else raise (Exn ImportError "paramiko is not installed; SSH functionality is unavailable.").

(** [SCPClient(transport)]. *)
Definition new_SCPClient : M nat :=
  if ssh_available env then
    s <- get ;; modify bump_obj ;;; ret (next_obj s)
  else raise (Exn ImportError "scp is not installed; file transfer functionality is unavailable.").

(** [client.connect(...)] of the library. *)
Definition client_connect (c : nat) (with_password : bool) : M unit :=
  s <- get ;;
  modify (log_event (EvConnect c with_password)) ;;;
  match lib_connect env s with_password with
  | None => ret tt
  | Some e => raise e
  end.

Definition connect : M bool :=
  try_except
    (c <- new_SSHClient ;;
     modify (set_ssh_client (Some c)) ;;;
     s <- get ;;
     (if truthy_opt (password (config (self s))) then client_connect c true
      else if truthy_opt (key_filename (config (self s))) then client_connect c false
      else raise (Exn ValueError "Either password or key_filename must be provided")) ;;;
     p <- new_SCPClient ;;
     modify (set_scp_client (Some p)) ;;;
     ret true)
    (fun _ => ret false).

Definition disconnect : M unit :=
  s <- get ;;
  match scp_client (self s) with
  | Some p => modify (log_event (EvCloseScp p)) ;;; modify (set_scp_client None)
  | None => ret tt
  end ;;;
  s1 <- get ;;
  match ssh_client (self s1) with
  | Some c => modify (log_event (EvCloseSsh c)) ;;; modify (set_ssh_client None)
  | None => ret tt
  end.

Definition execute_command (command : string) (tmo : Z) : M (Z * string * string) :=
  s <- get ;;
  match ssh_client (self s) with
  | None => raise (Exn ConnectionError "SSH client not connected")
  | Some c =>
      try_except
        (modify (log_event (EvExec c command tmo)) ;;;
         lift (lib_exec env s command tmo))
        (fun exc => raise exc)
  end.

Definition upload_file (local_path remote_path : string) (recursive : bool) : M unit :=
  s <- get ;;
  match scp_client (self s) with
  | None => raise (Exn ConnectionError "SCP client not connected")
  | Some p =>
      try_except
        (modify (log_event (EvPut p local_path remote_path recursive)) ;;;
         match lib_put env s local_path remote_path recursive with
         | None => ret tt
         | Some e => raise e
         end)
        (fun exc => raise exc)
  end.

Definition _upload_string_as_file (content remote_path : string) : M unit :=
  s <- get ;;
  match ssh_client (self s) with
  | None => raise (Exn ConnectionError "SSH client not connected")
  | Some _ =>
      try_except
        (temp_file <- (fun s0 => match mkstemp_write (fs s0) (tmp_names env s0) content with
                                 | Ok (name, f) => (Ok name, set_fs f s0)
                                 | Raise e => (Raise e, s0)
                                 end) ;;
         try_finally
           (upload_file temp_file remote_path false)
           (fun s0 => match unlink (fs s0) temp_file with
                      | Ok f => (Ok tt, set_fs f s0)
                      | Raise e => (Raise e, s0)
                      end))
        (fun exc => raise exc)
  end.

Definition upload_training_files (tc : TrainingConfig) : M string :=
  let workspace := remote_workspace tc +:+ "/" +:+ model_id tc in
  try_except
    (execute_command ("mkdir -p " +:+ workspace) 60 ;;;
     let role_file_path := path_of (role_file tc) in
     s <- get ;;
     (if path_exists (fs s) role_file_path
      then upload_file (path_str role_file_path) (workspace +:+ "/role.json") false
      else raise (Exn FileNotFoundError ("Role file not found: " +:+ path_str role_file_path))) ;;;
     training_script <- lift (create_script tc) ;;
     _upload_string_as_file training_script (workspace +:+ "/train.py") ;;;
     ret workspace)
    (fun exc => raise exc).

Definition job_file (job_id : string) : Path :=
  path_join (path_of "remote_jobs") (job_id +:+ ".json").

Definition job_info_of (job_id : string) (tc : TrainingConfig) (workspace pid : string) : json :=
  JObj (("job_id", JStr job_id) :: ("model_id", JStr (model_id tc))
        :: ("remote_workspace", JStr workspace) :: ("pid", JStr pid)
        :: ("config", config_dict tc) :: nil).

Definition _save_job_info (job_id : string) (tc : TrainingConfig) (workspace pid : string)
  : M unit :=
  let job_info := job_info_of job_id tc workspace pid in
  let jf := job_file job_id in
  s <- get ;;
  f1 <- lift (mkdir_exist_ok (fs s) (path_parent jf)) ;;
  modify (set_fs f1) ;;;
  f2 <- lift (write_file f1 jf (dumps 2 job_info)) ;;
  modify (set_fs f2).

(** Returns the decoded record; Python's [None] is [JNull]. *)
Definition _load_job_info (job_id : string) : M json :=
  let jf := job_file job_id in
  s <- get ;;
  if negb (path_exists (fs s) jf) then ret JNull
  else
    try_except
      (text <- lift (read_file (fs s) jf) ;;
       match loads text with
       | Some v => ret v
       | None => raise (Exn ValueError "JSONDecodeError")
       end)
      (fun _ => ret JNull).

Definition start_training (tc : TrainingConfig) : M string :=
  try_except
    (workspace <- upload_training_files tc ;;
     let training_cmd :=
       "cd " +:+ workspace +:+ " && python train.py > training.log 2>&1 & echo $!" in
     r <- execute_command training_cmd 60 ;;
     let '(return_code, stdout, stderr) := r in
     (if negb (return_code =? 0)
      then raise (Exn RuntimeError ("Failed to start training: " +:+ stderr))
      else ret tt) ;;;
     let pid := strip stdout in
     let job_id := "remote_" +:+ model_id tc +:+ "_" +:+ pid in
     _save_job_info job_id tc workspace pid ;;;
     ret job_id)
    (fun exc => raise exc).

Definition check_training_status (job_id : string) : M json :=
  try_except
    (job_info <- _load_job_info job_id ;;
     if negb (truthy job_info)
     then ret (JObj (("status", JStr "not_found") :: ("error", JStr "Job not found") :: nil))
     else
       workspace <- lift (getitem job_info "remote_workspace") ;;
       pid <- lift (getitem job_info "pid") ;;
       let check_cmd :=
         "ps -p " +:+ str pid +:+ " > /dev/null 2>&1 && echo 'running' || echo 'stopped'" in
       r <- execute_command check_cmd 60 ;;
       let '(_, stdout, _) := r in
       if contains "running" stdout then
         r1 <- execute_command ("tail -20 " +:+ str workspace +:+ "/training.log") 60 ;;
         let '(_, log_output, _) := r1 in
         ret (JObj (("status", JStr "running") :: ("pid", pid)
                    :: ("remote_workspace", workspace)
                    :: ("latest_log", JStr log_output) :: nil))
       else
         r2 <- execute_command ("ls -la " +:+ str workspace +:+ "/models/") 60 ;;
         let '(_, model_output, _) := r2 in
         if contains "model" (lower model_output) then
           ret (JObj (("status", JStr "completed") :: ("pid", pid)
                      :: ("remote_workspace", workspace)
                      :: ("model_files", JStr model_output) :: nil))
         else
           r3 <- execute_command ("tail -50 " +:+ str workspace +:+ "/training.log") 60 ;;
           let '(_, error_log, _) := r3 in
           ret (JObj (("status", JStr "failed") :: ("pid", pid)
                      :: ("remote_workspace", workspace)
                      :: ("error_log", JStr error_log) :: nil)))
    (fun exc => ret (JObj (("status", JStr "error") :: ("error", JStr (exn_text exc)) :: nil))).

End Manager.

(** [SSHManager._create_training_script].  The script text is an f-string
    whose lines [print(f"Model ID: {config['model_id']}")] and the four
    after it keep single braces, so [config['model_id']] is evaluated while
    the text is built, where no name [config] is bound: building the script
    raises [NameError] after [json.dumps(training_config.__dict__,
    indent=4)] has been computed. *)
Definition _create_training_script (tc : TrainingConfig) : Result string :=
  let _ := dumps 4 (config_dict tc) in
  Raise (Exn NameError "name 'config' is not defined").

(** [SSHManager.__init__]. *)
Definition new_manager (cfg : SSHConfig) : SSHManager :=
  {| config := cfg; ssh_client := None; scp_client := None |}.

(** The [status] entry of a status dict. *)
Definition status_of (d : json) : option json :=
  match d with
  | JObj kvs => obj_get "status" kvs
  | _ => None
  end.

(** The liveness probe of [check_training_status] and the dicts it
    returns, named for the statements below. *)
Definition probe_cmd (pid : json) : string :=
  "ps -p " +:+ str pid +:+ " > /dev/null 2>&1 && echo 'running' || echo 'stopped'".

Definition status_dict (status : string) (pid workspace : json) (key payload : string) : json :=
  JObj (("status", JStr status) :: ("pid", pid) :: ("remote_workspace", workspace)
        :: (key, JStr payload) :: nil).

Definition error_dict (e : exn) : json :=
  JObj (("status", JStr "error") :: ("error", JStr (exn_text e)) :: nil).

(** The launch command of [start_training]. *)
Definition launch_cmd (workspace : string) : string :=
  "cd " +:+ workspace +:+ " && python train.py > training.log 2>&1 & echo $!".

(** Two disks hold the same files (directories aside). *)
Definition same_files (f f' : gmap string node) : Prop :=
  forall k text, f' !! k = Some (File text) <-> f !! k = Some (File text).

Definition status_of_result (r : Result json) : option json :=
  match r with
  | Ok d => status_of d
  | Raise _ => None
  end.

End Ssh.

(** * Concrete environments and states *)

Module Scenario.
Import Text Json Py Fs Ssh.

Definition key_config : SSHConfig :=
  {| hostname := "gpu.example.org"; port := 22; username := "root"; password := None;
     key_filename := Some "/root/.ssh/id_rsa"; key_password := None; timeout := 60 |}.

(** A local disk with a role file and a temporary directory. *)
Definition local_disk : gmap string node :=
  <["roles/senku.json" := File "{}"]> (<["roles" := Dir]> (<["/tmp" := Dir]> ∅)).

Definition fresh_state : State :=
  {| self := new_manager key_config; fs := local_disk; trace := nil; next_obj := 0 |}.

(** A reachable host on which the job process has exited and left one
    file, [weights.bin], in [models/]. *)
Definition host_done : Env :=
  {| ssh_available := true;
     lib_connect := fun _ _ => None;
     lib_exec := fun _ command _ =>
       if starts_with "cd " command then Ok (0, "4242" +:+ String nl "", "")
       else if starts_with "ps -p" command then Ok (0, "stopped" +:+ String nl "", "")
       else if starts_with "ls -la" command
       then Ok (0, "total 4" +:+ String nl "-rw-r--r-- 1 root root 19 Nov  4 12:00 weights.bin"
                   +:+ String nl "", "")
       else if starts_with "tail" command then Ok (0, "Epoch 1 completed" +:+ String nl "", "")
       else Ok (0, "", "");
     lib_put := fun _ _ _ _ => None;
     tmp_names := fun _ => "/tmp/tmpk3x9.py" :: nil |}.

(** A host that refuses the key. *)
Definition host_refusing : Env :=
  {| ssh_available := true;
     lib_connect := fun _ _ =>
       Some (Exn (LibraryError "AuthenticationException") "Authentication failed.");
     lib_exec := fun _ _ _ => Raise (Exn (LibraryError "SSHException") "SSH session not active");
     lib_put := fun _ _ _ _ => Some (Exn (LibraryError "SCPException") "No transport");
     tmp_names := fun _ => "/tmp/tmpk3x9.py" :: nil |}.

Definition connected_state : State := snd (connect host_done fresh_state).

Definition demo_config : TrainingConfig :=
  {| model_id := "m1"; role_file := "roles/senku.json"; batch_size := 4; epochs := 1;
     learning_rate := "2e-05"; use_lora := true; remote_workspace := "/root/workspace" |}.

(** The registry directory with one record that is not JSON. *)
Definition corrupt_disk : gmap string node :=
  <["remote_jobs/remote_m1_4242.json" := File "{not json"]> (<["remote_jobs" := Dir]> local_disk).

(** The registry directory with the record of job [remote_m1_4242]. *)
Definition record_disk : gmap string node :=
  <["remote_jobs/remote_m1_4242.json" :=
      File (dumps 2 (job_info_of "remote_m1_4242" demo_config "/root/workspace/m1" "4242"))]>
    (<["remote_jobs" := Dir]> local_disk).

Definition with_disk (f : gmap string node) (s : State) : State := set_fs f s.

(** A reachable host on which the job process is still alive. *)
Definition host_running : Env :=
  {| ssh_available := true;
     lib_connect := fun _ _ => None;
     lib_exec := fun _ command _ =>
       if starts_with "ps -p" command then Ok (0, "running" +:+ String nl "", "")
       else if starts_with "tail" command then Ok (0, "Epoch 1/1 - Training..." +:+ String nl "", "")
       else Ok (0, "", "");
     lib_put := fun _ _ _ _ => None;
     tmp_names := fun _ => "/tmp/tmpk3x9.py" :: nil |}.

(** The connected manager with the record of job [remote_m1_4242] on
    disk. *)
Definition tracked_state : State := with_disk record_disk connected_state.

(** A script generator that returns a script. *)
Definition plain_script (tc : TrainingConfig) : Result string :=
  Ok ("print('training " +:+ model_id tc +:+ "')").

Definition demo_record : json :=
  job_info_of "remote_m1_4242" demo_config "/root/workspace/m1" "4242".

End Scenario.

(** ** Retrieving the artifacts of a job *)

Module Retrieval.
Import Text Json Py Fs Ssh.
Local Open Scope py_scope.

Definition is_file_not_found (e : exn) : bool :=
  match exn_kind_of e with
  | FileNotFoundError => true
  | _ => false
  end.

(** [os.mkdir(p)]. *)
Definition os_mkdir (f : gmap string node) (p : Path) : Result (gmap string node) :=
  if is_anchor p
  then Raise (Exn FileExistsError ("[Errno 17] File exists: " +:+ repr_str (path_str p)))
  else match f !! path_str p with
       | Some _ =>
           Raise (Exn FileExistsError ("[Errno 17] File exists: " +:+ repr_str (path_str p)))
       | None =>
           if is_dir f (path_parent p) then Ok (<[path_str p := Dir]> f)
           else Raise (parent_error f p)
       end.

(** [p.mkdir(parents=True, exist_ok=True)]: [os.mkdir] first; when the
    parent is missing the parent is made the same way and the directory is
    then made with [parents=False]; any other error is let through unless
    the path is a directory already.  [depth] bounds the climb to the
    parents. *)
Fixpoint mkdir_parents_from (depth : nat) (f : gmap string node) (p : Path)
  : Result (gmap string node) :=
  match os_mkdir f p with
  | Ok f1 => Ok f1
  | Raise e =>
      if is_file_not_found e then
        match depth with
        | O => Raise e
        | S depth' =>
            if is_anchor p then Raise e
            else match mkdir_parents_from depth' f (path_parent p) with
                 | Ok f1 => mkdir_exist_ok f1 p
                 | Raise e' => Raise e'
                 end
        end
      else if is_dir f p then Ok f else Raise e
  end.

Definition mkdir_parents (f : gmap string node) (p : Path) : Result (gmap string node) :=
  mkdir_parents_from (List.length (parts p)) f p.

(** What a disk may differ in after directories were made on it. *)
Definition adds_dirs (f f' : gmap string node) : Prop :=
  forall k, f' !! k = f !! k \/ (f !! k = None /\ f' !! k = Some Dir).

(** The listing command [download_trained_model] runs first. *)
Definition models_cmd (workspace : json) : string := "ls -la " +:+ (str workspace +:+ "/models").

Section Retriever.

Variable env : Env.

(** [scp_client.get(remote, local, recursive)] of the library: it may
    raise, and it leaves the local disk as the second component says.  A
    download is not an entry of [trace]. *)
Variable lib_get : State -> string -> string -> bool -> option exn * gmap string node.

Definition download_file (remote_path local_path : string) (recursive : bool) : M unit :=
  s <- get ;;
  match scp_client (self s) with
  | None => raise (Exn ConnectionError "SCP client not connected")
  | Some _ =>
      try_except
        (modify (set_fs (snd (lib_get s remote_path local_path recursive))) ;;;
         match fst (lib_get s remote_path local_path recursive) with
         | None => ret tt
         | Some e => raise e
         end)
        (fun exc => raise exc)
  end.

Definition download_trained_model (job_id local_path : string) : M bool :=
  try_except
    (job_info <- _load_job_info job_id ;;
     (if negb (truthy job_info)
      then raise (Exn ValueError ("Job not found: " +:+ job_id))
      else ret tt) ;;;
     workspace <- lift (getitem job_info "remote_workspace") ;;
     let remote_model_path := str workspace +:+ "/models" in
     r <- execute_command env ("ls -la " +:+ remote_model_path) 60 ;;
     let '(return_code, stdout, stderr) := r in
     (if negb (return_code =? 0)
      then raise (Exn FileNotFoundError ("Model not found on remote server: " +:+ stderr))
      else ret tt) ;;;
     let local_model_dir := path_join (path_of local_path) job_id in
     s <- get ;;
     f <- lift (mkdir_parents (fs s) local_model_dir) ;;
     modify (set_fs f) ;;;
     download_file remote_model_path (path_str local_model_dir) true ;;;
     ret true)
    (fun _ => ret false).

End Retriever.

End Retrieval.

(** ** The Autodl manager and the process-wide manager *)

Module Autodl.
Import Text Json Py Fs Ssh.
Local Open Scope py_scope.

(** [AutodlSSHManager.__init__]. *)
Definition AutodlSSHManager (host user : string) (key : option string) : SSHManager :=
  new_manager {| hostname := host; port := 22; username := user; password := None;
                 key_filename := key; key_password := None; timeout := 60 |}.

Definition setup_commands : list string :=
  "pip install transformers torch peft datasets accelerate"
  :: "mkdir -p /root/workspace" :: "mkdir -p /root/models" :: nil.

(** The loop of [setup_environment]: the exit code of a command only
    chooses the log message. *)
Fixpoint run_commands (env : Env) (commands : list string) : M unit :=
  match commands with
  | nil => ret tt
  | cmd :: rest => execute_command env cmd 60 ;;; run_commands env rest
  end.

Definition setup_environment (env : Env) : M unit := run_commands env setup_commands.

(** The state of the server process: its environment variables, the
    module variable [_ssh_manager] (the one manager object, with its
    current fields) and the world the managers act on. *)
Record Process : Type := {
  environ : gmap string string;
  _ssh_manager : option SSHManager;
  disk : gmap string node;
  events : list event;
  objects : nat }.

Definition set_manager (m : option SSHManager) (p : Process) : Process :=
  {| environ := environ p; _ssh_manager := m; disk := disk p; events := events p;
     objects := objects p |}.

Definition set_environ (e : gmap string string) (p : Process) : Process :=
  {| environ := e; _ssh_manager := _ssh_manager p; disk := disk p; events := events p;
     objects := objects p |}.

(** [get_ssh_manager()]. *)
Definition get_ssh_manager (env : Env) (p : Process) : option SSHManager * Process :=
  match _ssh_manager p with
  | Some m => (Some m, p)
  | None =>
      let host := environ p !! "SSH_HOSTNAME" in
      let user := default "root" (environ p !! "SSH_USERNAME") in
      let key := environ p !! "SSH_KEY_FILENAME" in
      match host with
      | Some h =>
          if negb (truthy_opt host) then (None, p)
          else if negb (ssh_available env) then (None, p)
          else (Some (AutodlSSHManager h user key),
                set_manager (Some (AutodlSSHManager h user key)) p)
      | None => (None, p)
      end
  end.

(** A method call on the process-wide manager [m]: the method runs on the
    object [_ssh_manager] names, its changes stay in that object, which is
    returned with the result. *)
Definition on_manager {A} (c : M A) (m : SSHManager) (p : Process)
  : Result A * SSHManager * Process :=
  let r := c {| self := m; fs := disk p; trace := events p; next_obj := objects p |} in
  (fst r, self (snd r),
   {| environ := environ p; _ssh_manager := Some (self (snd r));
      disk := fs (snd r); events := trace (snd r); objects := next_obj (snd r) |}).

(** [connect_ssh()]. *)
Definition connect_ssh (env : Env) (p : Process) : Result bool * Process :=
  match get_ssh_manager env p with
  | (None, p1) => (Ok false, p1)
  | (Some m, p1) => let '(r, _, p2) := on_manager (connect env) m p1 in (r, p2)
  end.

(** [disconnect_ssh()]. *)
Definition disconnect_ssh (env : Env) (p : Process) : Result unit * Process :=
  match get_ssh_manager env p with
  | (None, p1) => (Ok tt, p1)
  | (Some m, p1) => let '(r, _, p2) := on_manager disconnect m p1 in (r, p2)
  end.

End Autodl.

(** ** The server's connectivity endpoint *)

Module Api.
Import Text Json Py Fs Ssh Autodl.

Record SSHStatusResponse : Type := {
  connected : bool;
  resp_hostname : option string;
  error : option string }.

(** [ssh_status()] of [api.py]; [imported] tells whether the server could
    import the manager module. *)
Definition ssh_status (env : Env) (imported : bool) (p : Process) : SSHStatusResponse * Process :=
  if negb imported
  then ({| connected := false; resp_hostname := None;
           error := Some "SSH functionality is unavailable in this environment" |}, p)
  else
    match get_ssh_manager env p with
    | (None, p1) =>
        ({| connected := false; resp_hostname := None;
            error := Some "SSH manager is not configured" |}, p1)
    | (Some m, p1) =>
        match on_manager (connect env) m p1 with
        | (Ok true, m2, p2) =>
            match on_manager disconnect m2 p2 with
            | (Ok _, _, p3) =>
                ({| connected := true; resp_hostname := Some (hostname (config m2));
                    error := None |}, p3)
            | (Raise exc, _, p3) =>
                ({| connected := false; resp_hostname := None;
                    error := Some (exn_text exc) |}, p3)
            end
        | (Ok false, _, p2) =>
            ({| connected := false; resp_hostname := None;
                error := Some "Unable to connect to remote SSH server" |}, p2)
        | (Raise exc, _, p2) =>
            ({| connected := false; resp_hostname := None;
                error := Some (exn_text exc) |}, p2)
        end
    end.

End Api.

(** ** Notions used to state the facts on the tracker and the registry *)

Module Notions.
Import Text Json Py Fs Ssh.

(** The five values the [status] entry of a status dict takes. *)
Definition known_status (d : json) : Prop :=
  status_of d = Some (JStr "not_found") \/ status_of d = Some (JStr "running")
  \/ status_of d = Some (JStr "completed") \/ status_of d = Some (JStr "failed")
  \/ status_of d = Some (JStr "error").

(** The key of a job's record on the disk. *)
Definition record_key (job_id : string) : string := "remote_jobs/" +:+ job_id +:+ ".json".

End Notions.

(** ** More inputs for the checks *)

Module Cases.
Import Text Json Py Fs Ssh Retrieval Autodl Api.

(** The record of a job without its [pid] entry. *)
Definition partial_record : json :=
  JObj (("remote_workspace", JStr "/root/workspace/m1") :: nil).

Definition partial_disk : gmap string node :=
  <["remote_jobs/j7.json" := File (dumps 2 partial_record)]>
    (<["remote_jobs" := Dir]> Scenario.local_disk).

Definition partial_state : State := Scenario.with_disk partial_disk Scenario.connected_state.

(** A library download that leaves one file in the target directory. *)
Definition get_weights (s : State) (remote_path local_path : string) (recursive : bool)
  : option exn * gmap string node :=
  (None, <[local_path +:+ "/weights.bin" := File "0123"]> (fs s)).

(** A server process configured by [SSH_HOSTNAME] alone, and one without
    any configuration. *)
Definition server : Process :=
  {| environ := <["SSH_HOSTNAME" := "gpu.example.org"]> ∅; _ssh_manager := None;
     disk := Scenario.local_disk; events := nil; objects := 0 |}.

Definition bare_server : Process :=
  {| environ := ∅; _ssh_manager := None; disk := Scenario.local_disk; events := nil;
     objects := 0 |}.

(** A process whose manager has a key file. *)
Definition keyed_server : Process :=
  {| environ := <["SSH_KEY_FILENAME" := "/root/.ssh/id_rsa"]>
                  (<["SSH_HOSTNAME" := "gpu.example.org"]> ∅);
     _ssh_manager := None; disk := Scenario.local_disk; events := nil; objects := 0 |}.

End Cases.

(** * Checks of the model on concrete inputs *)

Example contains_running : Text.contains "running" ("running" +:+ String Text.nl "") = true.
Proof. reflexivity. Qed.

Example strip_pid : Text.strip (" 4242" +:+ String Text.nl "") = "4242".
Proof. reflexivity. Qed.

Example lower_model : Text.lower "M1_Model.BIN" = "m1_model.bin".
Proof. reflexivity. Qed.

Example of_Z_neg : Text.of_Z (-42) = "-42".
Proof. reflexivity. Qed.

Example dumps_small :
  Json.dumps 2 (Json.JObj (("pid", Json.JStr "42") :: ("n", Json.JList (Json.JInt 1 :: Json.JBool true :: nil)) :: nil))
  = Text.concat_all
      ("{" :: String Text.nl "  " :: String Text.dq "pid" :: String Text.dq ": "
       :: String Text.dq "42" :: String Text.dq "," :: String Text.nl "  "
       :: String Text.dq "n" :: String Text.dq ": [" :: String Text.nl "    1,"
       :: String Text.nl "    true" :: String Text.nl "  ]" :: String Text.nl "}" :: nil).
Proof. reflexivity. Qed.

Example loads_dumps_small :
  let v := Json.JObj (("pid", Json.JStr ("4" +:+ String Text.nl "2")) :: ("lr", Json.JFloat "2e-05")
                     :: ("n", Json.JList (Json.JInt (-17) :: Json.JNull :: Json.JObj nil :: nil)) :: nil) in
  Json.loads (Json.dumps 2 v) = Some v.
Proof. vm_compute. reflexivity. Qed.

Example loads_corrupt : Json.loads "{not json" = None.
Proof. reflexivity. Qed.

Example loads_extra : Json.loads "01" = None.
Proof. reflexivity. Qed.

Example loads_duplicate_key :
  Json.loads (Text.concat_all ("{" :: String Text.dq "a" :: String Text.dq ": 1, "
                               :: String Text.dq "b" :: String Text.dq ": 2, "
                               :: String Text.dq "a" :: String Text.dq ": 3}" :: nil))
  = Some (Json.JObj (("a", Json.JInt 3) :: ("b", Json.JInt 2) :: nil)).
Proof. reflexivity. Qed.

Example path_job_file :
  Fs.path_str (Fs.path_join (Fs.path_of "remote_jobs") "remote_m1_4242.json")
  = "remote_jobs/remote_m1_4242.json".
Proof. reflexivity. Qed.

Example path_job_parent :
  Fs.path_str (Fs.path_parent (Fs.path_join (Fs.path_of "remote_jobs") "remote_a/b_7.json"))
  = "remote_jobs/remote_a".
Proof. reflexivity. Qed.

Example path_norm : Fs.path_str (Fs.path_of "./roles//senku.json") = "roles/senku.json".
Proof. reflexivity. Qed.

Example path_abs_join : Fs.path_str (Fs.path_join (Fs.path_of "remote_jobs") "/tmp/x.json") = "/tmp/x.json".
Proof. reflexivity. Qed.

Example repr_key : Py.repr_str "remote_workspace" = "'remote_workspace'".
Proof. reflexivity. Qed.

Example loads_numbers :
  Json.loads "1.e5" = None /\ Json.loads "2e" = None /\ Json.loads "[1,]" = None
  /\ Json.loads "" = None
  /\ Json.loads "-0" = Some (Json.JInt 0) /\ Json.loads " 1 " = Some (Json.JInt 1)
  /\ Json.loads "1E5" = Some (Json.JFloat "1E5")
  /\ Json.loads "NaN" = Some (Json.JFloat "NaN")
  /\ Json.loads "-Infinity" = Some (Json.JFloat "-Infinity").
Proof. repeat split; reflexivity. Qed.

Example dumps_escapes :
  Json.dumps 2 (Json.JStr (String "a" (String Text.dq (String "b" (String "127" (String "233" ""))))))
  = String Text.dq ("a\" +:+ String Text.dq ("b\u007f\u00e9" +:+ String Text.dq "")).
Proof. reflexivity. Qed.

Example loads_escape :
  Json.loads (String Text.dq ("\u00e9" +:+ String Text.dq "")) = Some (Json.JStr (String "233" "")).
Proof. reflexivity. Qed.

Example float_texts :
  Json.float_ok "2e-05" = true /\ Json.float_ok "0.001" = true /\ Json.float_ok "NaN" = true
  /\ Json.float_ok "12" = false /\ Json.float_ok "1.5x" = false /\ Json.float_ok "" = false.
Proof. repeat split; reflexivity. Qed.

Example path_roots :
  Fs.path_str (Fs.path_of "//a/b") = "//a/b" /\ Fs.path_str (Fs.path_of "///a") = "/a"
  /\ Fs.path_str (Fs.path_of "") = ".".
Proof. repeat split; reflexivity. Qed.

Example str_of_dict :
  Py.str (Json.JObj (("a", Json.JStr "it's")
                     :: ("b", Json.JList (Json.JInt 1 :: Json.JNull :: Json.JBool true
                                          :: Json.JFloat "1.5" :: nil)) :: nil))
  = "{'a': " +:+ String Text.dq ("it's" +:+ String Text.dq ", 'b': [1, None, True, 1.5]}").
Proof. reflexivity. Qed.

Example own_script_raises :
  Ssh._create_training_script Scenario.demo_config
  = Py.Raise (Py.Exn Py.NameError "name 'config' is not defined").
Proof. reflexivity. Qed.

(** * [json.loads] inverts [json.dumps] *)

Section JsonFacts.
Import Text Json.

Lemma append_cons (x : ascii) (a b : string) : String x a +:+ b = String x (a +:+ b).
Proof. reflexivity. Qed.

Lemma append_nil_l (b : string) : "" +:+ b = b.
Proof. reflexivity. Qed.

Lemma append_assoc (a b c : string) : (a +:+ b) +:+ c = a +:+ (b +:+ c).
Proof.
  induction a as [|x a IH]; [reflexivity|].
  rewrite !append_cons, IH. reflexivity.
Qed.

Lemma append_nil_r (a : string) : a +:+ "" = a.
Proof.
  induction a as [|x a IH]; [reflexivity|].
  rewrite append_cons, IH. reflexivity.
Qed.

Lemma length_append (a b : string) :
  String.length (a +:+ b) = (String.length a + String.length b)%nat.
Proof.
  induction a as [|x a IH]; [reflexivity|].
  rewrite append_cons. cbn [String.length]. rewrite IH. reflexivity.
Qed.

Lemma scan_string_escape_char (c : ascii) (tail : string) :
  scan_string (escape_char c +:+ tail) =
    match scan_string tail with
    | Some (body, rest) => Some (String c body, rest)
    | None => None
    end.
Proof.
  destruct c as [[] [] [] [] [] [] [] []]; reflexivity.
Qed.

Lemma scan_string_escape_body (s rest : string) :
  scan_string (escape_body s +:+ String dq rest) = Some (s, rest).
Proof.
  induction s as [|c s IH]; [reflexivity|].
  cbn [escape_body]. rewrite append_assoc, scan_string_escape_char, IH. reflexivity.
Qed.

Lemma span_digits_app (s rest : string) :
  stops rest = true ->
  span_digits (s +:+ rest) = (fst (span_digits s), snd (span_digits s) +:+ rest).
Proof.
  intros Hst. induction s as [|c s IH].
  - rewrite append_nil_l. destruct rest as [|c r]; [reflexivity|].
    cbn in Hst. cbn [span_digits]. destruct (is_digit c); [discriminate|reflexivity].
  - rewrite append_cons. cbn [span_digits].
    destruct (is_digit c); [|reflexivity].
    rewrite IH. destruct (span_digits s). reflexivity.
Qed.

Lemma scan_int_app (s rest ip r : string) :
  stops rest = true -> scan_int s = Some (ip, r) ->
  scan_int (s +:+ rest) = Some (ip, r +:+ rest).
Proof.
  intros Hst. destruct s as [|d s]; [discriminate|].
  rewrite append_cons. unfold scan_int.
  destruct (is_digit d) eqn:Hd; [|discriminate].
  destruct (Ascii.eqb d "0").
  - intros E; inversion E; reflexivity.
  - intros E. change (String d (s +:+ rest)) with (String d s +:+ rest).
    rewrite (span_digits_app (String d s) rest Hst).
    assert (E' : span_digits (String d s) = (ip, r)) by congruence.
    rewrite E'. reflexivity.
Qed.

Lemma scan_frac_app (s rest : string) :
  stops rest = true ->
  scan_frac (s +:+ rest) = (fst (scan_frac s), snd (scan_frac s) +:+ rest).
Proof.
  intros Hst. destruct s as [|c s].
  - rewrite append_nil_l. destruct rest as [|c r]; [reflexivity|].
    cbn in Hst. unfold scan_frac.
    destruct c as [[] [] [] [] [] [] [] []]; try reflexivity; discriminate.
  - rewrite append_cons. unfold scan_frac.
    destruct c as [[] [] [] [] [] [] [] []]; try reflexivity.
    rewrite (span_digits_app _ _ Hst). destruct (span_digits s) as [fd r'].
    cbn [fst snd]. destruct fd; reflexivity.
Qed.

Lemma scan_exp_app (s rest : string) :
  stops rest = true ->
  scan_exp (s +:+ rest) = (fst (scan_exp s), snd (scan_exp s) +:+ rest).
Proof.
  intros Hst. destruct s as [|c s].
  - rewrite append_nil_l. destruct rest as [|c r]; [reflexivity|].
    cbn in Hst. unfold scan_exp.
    destruct (Ascii.eqb c "e"), (Ascii.eqb c "E"); cbn [orb]; try reflexivity;
      destruct (is_digit c), (Ascii.eqb c "."), (Ascii.eqb c "+"), (Ascii.eqb c "-"); discriminate.
  - rewrite append_cons. unfold scan_exp.
    destruct (Ascii.eqb c "e" || Ascii.eqb c "E"); [|reflexivity].
    assert (Hgen : forall q, span_digits (q +:+ rest)
                              = (fst (span_digits q), snd (span_digits q) +:+ rest))
      by (intros q; apply span_digits_app, Hst).
    destruct s as [|x s'].
    + rewrite append_nil_l. destruct rest as [|y r]; [reflexivity|].
      cbn in Hst.
      destruct y as [[] [] [] [] [] [] [] []]; try discriminate; reflexivity.
    + rewrite append_cons.
      destruct x as [[] [] [] [] [] [] [] []];
        try (rewrite <- append_cons, Hgen; destruct (span_digits (String _ s')) as [ed r'];
             cbn [fst snd]; destruct ed; reflexivity);
        rewrite Hgen; destruct (span_digits s') as [ed r']; cbn [fst snd];
        destruct ed; reflexivity.
Qed.

Lemma scan_number_app (s rest : string) (v : json) (r : string) :
  stops rest = true -> scan_number s = Some (v, r) ->
  scan_number (s +:+ rest) = Some (v, r +:+ rest).
Proof.
  intros Hst. unfold scan_number.
  assert (Hcore : forall neg s1,
    match scan_int s1 with
    | Some (ip, r1) =>
        let (frac, r2) := scan_frac r1 in
        let (ex, r3) := scan_exp r2 in
        match frac, ex with
        | EmptyString, EmptyString =>
            Some (JInt (if neg : bool then - digits_value 0 ip else digits_value 0 ip), r3)
        | _, _ => Some (JFloat ((if neg then "-" else "") +:+ ip +:+ frac +:+ ex), r3)
        end
    | None => None
    end = Some (v, r) ->
    match scan_int (s1 +:+ rest) with
    | Some (ip, r1) =>
        let (frac, r2) := scan_frac r1 in
        let (ex, r3) := scan_exp r2 in
        match frac, ex with
        | EmptyString, EmptyString =>
            Some (JInt (if neg : bool then - digits_value 0 ip else digits_value 0 ip), r3)
        | _, _ => Some (JFloat ((if neg then "-" else "") +:+ ip +:+ frac +:+ ex), r3)
        end
    | None => None
    end = Some (v, r +:+ rest)).
  { intros neg s1. destruct (scan_int s1) as [[ip r1]|] eqn:Hi; [|discriminate].
    rewrite (scan_int_app _ _ _ _ Hst Hi), (scan_frac_app _ _ Hst).
    destruct (scan_frac r1) as [frac r2]. cbn [fst snd].
    rewrite (scan_exp_app _ _ Hst). destruct (scan_exp r2) as [ex r3]. cbn [fst snd].
    destruct frac, ex; intros E; inversion E; reflexivity. }
  destruct s as [|c s]; [discriminate|].
  rewrite append_cons.
  destruct c as [[] [] [] [] [] [] [] []];
    try (rewrite <- append_cons; apply (Hcore false)).
  apply (Hcore true).
Qed.

Lemma digits_value_acc (d : Decimal.uint) (acc : positive) :
  digits_value (Zpos acc) (NilEmpty.string_of_uint d) = Zpos (Pos.of_uint_acc d acc).
Proof.
  revert acc. induction d; intros acc; cbn [NilEmpty.string_of_uint digits_value Pos.of_uint_acc];
    try reflexivity; rewrite <- IHd; f_equal;
    match goal with
    | |- context [Z.of_nat ?n] =>
        let v := eval vm_compute in (Z.of_nat n) in change (Z.of_nat n) with v
    end; lia.
Qed.

Lemma digits_value_uint (d : Decimal.uint) :
  digits_value 0 (NilEmpty.string_of_uint d) = Z.of_N (Pos.of_uint d).
Proof.
  induction d; cbn [NilEmpty.string_of_uint digits_value Pos.of_uint]; try reflexivity;
    try (cbn [Z.of_N]; rewrite <- digits_value_acc; reflexivity).
  exact IHd.
Qed.

Lemma span_digits_uint (d : Decimal.uint) :
  span_digits (NilEmpty.string_of_uint d) = (NilEmpty.string_of_uint d, "").
Proof.
  induction d; cbn [NilEmpty.string_of_uint]; try reflexivity;
    cbn [span_digits]; change (is_digit _) with true; cbn iota; rewrite IHd; reflexivity.
Qed.

Lemma nzhead_not_D0 (d d' : Decimal.uint) : Decimal.nzhead d <> Decimal.D0 d'.
Proof. induction d; cbn; try discriminate. exact IHd. Qed.

Lemma to_uint_head (p : positive) :
  match Pos.to_uint p with
  | Decimal.Nil | Decimal.D0 _ => False
  | _ => True
  end.
Proof.
  pose proof (DecimalPos.Unsigned.to_of (Pos.to_uint p)) as H.
  rewrite DecimalPos.Unsigned.of_to in H. cbn [N.to_uint] in H.
  pose proof (DecimalPos.Unsigned.to_uint_nonnil p) as Hn.
  pose proof (DecimalPos.Unsigned.to_uint_nonzero p) as Hz.
  destruct (Pos.to_uint p) as [|d| | | | | | | | |] eqn:E; try exact I; [congruence|].
  unfold Decimal.unorm in H. cbn [Decimal.nzhead] in H.
  destruct (Decimal.nzhead d) eqn:Hd; try discriminate.
  - inversion H. subst d. apply Hz. reflexivity.
  - exfalso. apply (nzhead_not_D0 d u). rewrite Hd. congruence.
Qed.

Lemma scan_number_pos (p : positive) (neg : bool) :
  scan_number ((if neg then "-" else "") +:+ NilEmpty.string_of_uint (Pos.to_uint p))
  = Some (JInt (if neg then Zneg p else Zpos p), "").
Proof.
  assert (Hcore : scan_int (NilEmpty.string_of_uint (Pos.to_uint p))
                  = Some (NilEmpty.string_of_uint (Pos.to_uint p), "")).
  { pose proof (to_uint_head p) as Hh. pose proof (span_digits_uint (Pos.to_uint p)) as Hs.
    destruct (Pos.to_uint p); try contradiction;
      cbn [NilEmpty.string_of_uint] in *; unfold scan_int;
      change (is_digit _) with true; cbn iota; change (Ascii.eqb _ "0") with false; cbn iota;
      rewrite Hs; reflexivity. }
  assert (Hv : digits_value 0 (NilEmpty.string_of_uint (Pos.to_uint p)) = Zpos p).
  { rewrite digits_value_uint, DecimalPos.Unsigned.of_to. reflexivity. }
  unfold scan_number.
  destruct neg.
  - rewrite append_cons, append_nil_l. rewrite Hcore. cbn. rewrite Hv. reflexivity.
  - rewrite append_nil_l.
    pose proof (to_uint_head p) as Hh.
    destruct (NilEmpty.string_of_uint (Pos.to_uint p)) as [|c r] eqn:E; [discriminate Hcore|].
    assert (Hc : c <> "-"%char).
    { intros ->. unfold scan_int in Hcore. discriminate Hcore. }
    destruct c as [[] [] [] [] [] [] [] []]; try congruence;
      rewrite Hcore; cbn -[digits_value]; rewrite Hv; reflexivity.
Qed.

Lemma of_Z_signed (p : positive) (neg : bool) :
  of_Z (if neg then Zneg p else Zpos p)
  = (if neg then "-" else "") +:+ NilEmpty.string_of_uint (Pos.to_uint p).
Proof.
  pose proof (DecimalPos.Unsigned.to_uint_nonnil p) as Hn.
  destruct neg; unfold of_Z, Z.to_int, NilZero.string_of_int, NilZero.string_of_uint;
    destruct (Pos.to_uint p); try congruence; reflexivity.
Qed.

Lemma scan_number_of_Z (n : Z) : scan_number (of_Z n) = Some (JInt n, "").
Proof.
  destruct n as [|p|p]; [reflexivity| |].
  - rewrite (of_Z_signed p false). exact (scan_number_pos p false).
  - rewrite (of_Z_signed p true). exact (scan_number_pos p true).
Qed.

Lemma parse_value_number (t rest : string) (v : json) (f : nat) :
  scan_number t = Some (v, "") -> stops rest = true ->
  parse_value (S f) (t +:+ rest) = Some (v, rest).
Proof.
  intros Hn Hst. pose proof (scan_number_app t rest v "" Hst Hn) as Happ.
  rewrite append_nil_l in Happ.
  destruct t as [|c t]; [discriminate Hn|].
  rewrite append_cons in *.
  destruct c as [[] [] [] [] [] [] [] []];
    try (exfalso; clear Happ; unfold scan_number, scan_int in Hn; cbn in Hn; discriminate Hn);
    cbn -[scan_number]; rewrite Happ; reflexivity.
Qed.

Lemma skip_ws_spaces (n : nat) (x : string) : skip_ws (repeat_char " " n +:+ x) = skip_ws x.
Proof. induction n as [|n IH]; [reflexivity|]. cbn [repeat_char]. rewrite append_cons. exact IH. Qed.

Lemma skip_ws_indent (ind n : nat) (x : string) : skip_ws (newline_indent ind n +:+ x) = skip_ws x.
Proof. unfold newline_indent. rewrite append_cons. cbn [skip_ws]. apply skip_ws_spaces. Qed.

Lemma skip_ws_start (c : ascii) (t : string) : vstart c = true -> skip_ws (String c t) = String c t.
Proof.
  unfold vstart. intros H. apply andb_true_iff in H as [H _].
  cbn [skip_ws]. destruct (is_ws c); [discriminate|reflexivity].
Qed.

Lemma float_ok_start (c : ascii) (t : string) : float_ok (String c t) = true -> vstart c = true.
Proof.
  unfold float_ok, scan_number, scan_int.
  destruct c as [[] [] [] [] [] [] [] []]; try reflexivity; intros H; cbn in H; discriminate H.
Qed.

Lemma float_ok_nonempty : float_ok "" = false.
Proof. reflexivity. Qed.

Lemma dumps_start (ind lvl : nat) (v : json) :
  wf v = true -> exists c t, dumps_at ind lvl v = String c t /\ vstart c = true.
Proof.
  destruct v as [|[]|n|t|s|[|x xs]|[|kx kvs]]; intros Hwf;
    try (eexists; eexists; split; [reflexivity|reflexivity]).
  - destruct n as [|p|p].
    + eexists; eexists; split; reflexivity.
    + cbn [dumps_at]. rewrite (of_Z_signed p false), append_nil_l.
      pose proof (to_uint_head p) as Hh.
      destruct (Pos.to_uint p); try contradiction;
        eexists; eexists; split; reflexivity.
    + cbn [dumps_at]. rewrite (of_Z_signed p true).
      eexists; eexists; split; reflexivity.
  - cbn [wf] in Hwf. cbn [dumps_at]. destruct t as [|c t]; [discriminate|].
    exists c, t. split; [reflexivity|]. exact (float_ok_start c t Hwf).
Qed.

Lemma parse_value_list_nonempty (f : nat) (r : string) (c : ascii) (t : string) :
  skip_ws r = String c t -> vstart c = true ->
  parse_value (S f) (String "[" r) =
    match parse_items f (String c t) with
    | Some (l, rest) => Some (JList l, rest)
    | None => None
    end.
Proof.
  intros H1 H2. cbn -[parse_items skip_ws]. rewrite H1.
  destruct c as [[] [] [] [] [] [] [] []]; try reflexivity; discriminate H2.
Qed.

Lemma parse_items_eq (f : nat) (s : string) :
  parse_items (S f) s =
    match parse_value f s with
    | None => None
    | Some (v, r) =>
        match skip_ws r with
        | String "]" rest => Some (v :: nil, rest)
        | String "," r1 =>
            match parse_items f (skip_ws r1) with
            | Some (l, rest) => Some (v :: l, rest)
            | None => None
            end
        | _ => None
        end
    end.
Proof. reflexivity. Qed.

Lemma stops_indent (ind n : nat) (x : string) : stops (newline_indent ind n +:+ x) = true.
Proof. reflexivity. Qed.

Lemma items_ok (ind lvl : nat) (rest : string) (xs : list json) :
  forall (x : json) (f : nat),
    Forall (fun y => wf y = true /\ roundtrips y) (x :: xs) ->
    (list_sum (map (fun y => S (weight y)) (x :: xs)) <= f)%nat ->
    parse_items f
      (dumps_at ind (S lvl) x
       +:+ concat_all (map (fun y => "," +:+ newline_indent ind (S lvl)
                                     +:+ dumps_at ind (S lvl) y) xs)
       +:+ newline_indent ind lvl +:+ "]" +:+ rest)
    = Some (x :: xs, rest).
Proof.
  induction xs as [|y ys IH]; intros x f HF Hf.
  - inversion HF as [|? ? [Hwx Hrx] _]; subst.
    cbn [map list_sum fold_right] in Hf. destruct f as [|f]; [lia|].
    cbn [map concat_all]. rewrite append_nil_l, parse_items_eq.
    rewrite (Hrx ind (S lvl) _ f (stops_indent _ _ _)) by lia.
    rewrite skip_ws_indent. reflexivity.
  - inversion HF as [|? ? [Hwx Hrx] HF']; subst.
    cbn [map list_sum fold_right] in Hf. destruct f as [|f]; [lia|].
    cbn [map concat_all]. rewrite !append_assoc, parse_items_eq.
    rewrite append_cons, append_nil_l.
    rewrite Hrx; [|reflexivity|lia].
    change (skip_ws (String "," ?z)) with (String "," z). cbn iota.
    rewrite skip_ws_indent.
    inversion HF' as [|? ? [Hwy Hry] _]; subst.
    destruct (dumps_start ind (S lvl) y Hwy) as (c & t & Hd & Hc).
    rewrite Hd at 1. rewrite append_cons, (skip_ws_start _ _ Hc), <- append_cons, <- Hd.
    rewrite (IH y f HF') by (cbn [map list_sum fold_right] in *; lia).
    reflexivity.
Qed.

Lemma encode_string_app (k z : string) :
  encode_string k +:+ z = String dq (escape_body k +:+ String dq z).
Proof. unfold encode_string. rewrite append_cons, append_assoc. reflexivity. Qed.

Lemma parse_members_eq (f : nat) (r : string) :
  parse_members (S f) (String dq r) =
    match scan_string r with
    | None => None
    | Some (k, r1) =>
        match skip_ws r1 with
        | String ":" r2 =>
            match parse_value f (skip_ws r2) with
            | None => None
            | Some (v, r3) =>
                match skip_ws r3 with
                | String "}" rest => Some ((k, v) :: nil, rest)
                | String "," r4 =>
                    match parse_members f (skip_ws r4) with
                    | Some (kvs, rest) => Some ((k, v) :: kvs, rest)
                    | None => None
                    end
                | _ => None
                end
            end
        | _ => None
        end
    end.
Proof. reflexivity. Qed.

Lemma skip_ws_dumps (ind lvl : nat) (v : json) (z : string) :
  wf v = true -> skip_ws (dumps_at ind lvl v +:+ z) = dumps_at ind lvl v +:+ z.
Proof.
  intros Hwf. destruct (dumps_start ind lvl v Hwf) as (c & t & Hd & Hc).
  rewrite Hd, append_cons. apply skip_ws_start, Hc.
Qed.

Lemma skip_ws_encode (k z : string) : skip_ws (encode_string k +:+ z) = encode_string k +:+ z.
Proof. rewrite encode_string_app. reflexivity. Qed.

Lemma member_step (f : nat) (k : string) (x : json) (ind lvl : nat) (tail : string) :
  wf x = true -> roundtrips x -> (weight x <= f)%nat -> stops tail = true ->
  parse_members (S f) (encode_string k +:+ ": " +:+ dumps_at ind lvl x +:+ tail) =
    match skip_ws tail with
    | String "}" rest => Some ((k, x) :: nil, rest)
    | String "," r4 =>
        match parse_members f (skip_ws r4) with
        | Some (kvs, rest) => Some ((k, x) :: kvs, rest)
        | None => None
        end
    | _ => None
    end.
Proof.
  intros Hwx Hrx Hf Hst.
  rewrite encode_string_app, parse_members_eq, scan_string_escape_body.
  rewrite !append_cons, append_nil_l.
  change (skip_ws (String ":" ?z)) with (String ":" z). cbn iota.
  change (skip_ws (String " " ?z)) with (skip_ws z).
  rewrite (skip_ws_dumps _ _ _ _ Hwx).
  rewrite Hrx; [|exact Hst|exact Hf].
  reflexivity.
Qed.

Lemma members_ok (ind lvl : nat) (rest : string) (kvs : list (string * json)) :
  forall (kx : string * json) (f : nat),
    Forall (fun kv => wf (snd kv) = true /\ roundtrips (snd kv)) (kx :: kvs) ->
    (list_sum (map (fun kv => S (weight (snd kv))) (kx :: kvs)) <= f)%nat ->
    parse_members f
      (encode_string (fst kx) +:+ ": " +:+ dumps_at ind (S lvl) (snd kx)
       +:+ concat_all (map (fun ky => "," +:+ newline_indent ind (S lvl)
                                      +:+ encode_string (fst ky) +:+ ": "
                                      +:+ dumps_at ind (S lvl) (snd ky)) kvs)
       +:+ newline_indent ind lvl +:+ "}" +:+ rest)
    = Some (kx :: kvs, rest).
Proof.
  induction kvs as [|ky kys IH]; intros [k x] f HF Hf; cbn [fst snd] in *.
  - inversion HF as [|? ? [Hwx Hrx] _]; subst. cbn [fst snd] in *.
    cbn [map list_sum fold_right fst snd] in Hf. destruct f as [|f]; [lia|].
    cbn [map concat_all]. rewrite append_nil_l.
    rewrite member_step; [|exact Hwx|exact Hrx|lia|reflexivity].
    rewrite skip_ws_indent. reflexivity.
  - inversion HF as [|? ? [Hwx Hrx] HF']; subst. cbn [fst snd] in *.
    cbn [map list_sum fold_right fst snd] in Hf. destruct f as [|f]; [lia|].
    cbn [map concat_all]. rewrite !append_assoc.
    rewrite member_step; [|exact Hwx|exact Hrx|lia|reflexivity].
    rewrite (append_cons "," "" _), append_nil_l.
    change (skip_ws (String "," ?z)) with (String "," z). cbn iota.
    rewrite skip_ws_indent, skip_ws_encode.
    rewrite (IH ky f HF') by (cbn [map list_sum fold_right fst snd] in *; lia).
    reflexivity.
Qed.

Lemma json_ind' (P : json -> Prop)
  (Hnull : P JNull) (Hbool : forall b, P (JBool b)) (Hint : forall n, P (JInt n))
  (Hfloat : forall t, P (JFloat t)) (Hstr : forall s, P (JStr s))
  (Hlist : forall l, Forall P l -> P (JList l))
  (Hobj : forall kvs, Forall (fun kv => P (snd kv)) kvs -> P (JObj kvs)) :
  forall v, P v.
Proof.
  fix IH 1. intros [|b|n|t|s|l|kvs].
  - exact Hnull.
  - apply Hbool.
  - apply Hint.
  - apply Hfloat.
  - apply Hstr.
  - apply Hlist. induction l as [|x l IHl]; constructor; [apply IH|exact IHl].
  - apply Hobj. induction kvs as [|kx kvs IHk]; constructor; [apply IH|exact IHk].
Qed.

Lemma dict_set_fresh (k : string) (v : json) (d : list (string * json)) :
  existsb (String.eqb k) (map fst d) = false -> dict_set k v d = (d ++ (k, v) :: nil)%list.
Proof.
  induction d as [|[k' v'] d IH]; cbn [map existsb dict_set fst]; [reflexivity|].
  intros H. apply orb_false_iff in H as [H1 H2]. rewrite H1, (IH H2). reflexivity.
Qed.

Lemma distinct_app_fresh (l1 l2 : list string) (k : string) :
  distinct (l1 ++ k :: l2)%list = true -> existsb (String.eqb k) l1 = false.
Proof.
  induction l1 as [|a l1 IH]; cbn [app distinct existsb]; [reflexivity|].
  intros H. apply andb_true_iff in H as [H1 H2].
  rewrite (IH H2), orb_false_r.
  apply negb_true_iff in H1. rewrite existsb_app in H1.
  apply orb_false_iff in H1 as [_ H1]. cbn [existsb] in H1.
  apply orb_false_iff in H1 as [H1 _]. rewrite String.eqb_sym. exact H1.
Qed.

Lemma dict_fold_distinct (kvs acc : list (string * json)) :
  distinct (map fst (acc ++ kvs)%list) = true ->
  fold_left (fun d kv => dict_set (fst kv) (snd kv) d) kvs acc = (acc ++ kvs)%list.
Proof.
  revert acc. induction kvs as [|[k v] kvs IH]; intros acc H; cbn [fold_left fst snd].
  - rewrite app_nil_r. reflexivity.
  - rewrite dict_set_fresh.
    + rewrite IH; rewrite <- app_assoc; [reflexivity|exact H].
    + rewrite map_app in H. cbn [map fst] in H. exact (distinct_app_fresh _ _ _ H).
Qed.

Lemma dict_of_pairs_distinct (kvs : list (string * json)) :
  distinct (map fst kvs) = true -> dict_of_pairs kvs = kvs.
Proof. intros H. unfold dict_of_pairs. rewrite dict_fold_distinct; [reflexivity|exact H]. Qed.

Lemma parse_value_obj_nonempty (f : nat) (r t : string) :
  skip_ws r = String dq t ->
  parse_value (S f) (String "{" r) =
    match parse_members f (String dq t) with
    | Some (kvs, rest) => Some (JObj (dict_of_pairs kvs), rest)
    | None => None
    end.
Proof. intros H. cbn -[parse_members skip_ws dict_of_pairs]. rewrite H. reflexivity. Qed.

Lemma parse_value_list_dumps (f : nat) (r : string) (ind lvl : nat) (x : json) (tail : string) :
  wf x = true -> skip_ws r = dumps_at ind lvl x +:+ tail ->
  parse_value (S f) (String "[" r) =
    match parse_items f (dumps_at ind lvl x +:+ tail) with
    | Some (l, rest) => Some (JList l, rest)
    | None => None
    end.
Proof.
  intros Hwx Hsk. destruct (dumps_start ind lvl x Hwx) as (c & t & Hd & Hc).
  rewrite Hd, append_cons in *. apply parse_value_list_nonempty; assumption.
Qed.

Lemma parse_value_obj_encode (f : nat) (r k tail : string) :
  skip_ws r = encode_string k +:+ tail ->
  parse_value (S f) (String "{" r) =
    match parse_members f (encode_string k +:+ tail) with
    | Some (kvs, rest) => Some (JObj (dict_of_pairs kvs), rest)
    | None => None
    end.
Proof. rewrite encode_string_app. apply parse_value_obj_nonempty. Qed.

Lemma forallb_Forall_and {A} (p : A -> bool) (Q : A -> Prop) (l : list A) :
  forallb p l = true -> Forall (fun x => p x = true -> Q x) l ->
  Forall (fun x => p x = true /\ Q x) l.
Proof.
  induction l as [|x l IH]; cbn [forallb]; intros H HF; constructor.
  - apply andb_true_iff in H as [H _]. inversion HF; subst. auto.
  - apply andb_true_iff in H as [_ H]. inversion HF; subst. auto.
Qed.

Theorem parse_dumps (v : json) : wf v = true -> roundtrips v.
Proof.
  induction v as [|b|n|t|s|l IHl|kvs IHk] using json_ind'; intros Hwf ind lvl rest fuel Hst Hf;
    (destruct fuel as [|f]; [cbn in Hf; lia|]).
  - reflexivity.
  - destruct b; reflexivity.
  - cbn [dumps_at]. apply parse_value_number; [apply scan_number_of_Z|exact Hst].
  - cbn [dumps_at wf] in *. unfold float_ok in Hwf.
    apply orb_true_iff in Hwf as [Hwf|Hwf]; [apply orb_true_iff in Hwf as [Hwf|Hwf];
      [apply orb_true_iff in Hwf as [Hwf|Hwf]|]|].
    + destruct (scan_number t) as [[[| | |t'| | |] [|]]|] eqn:Hs; try discriminate Hwf.
      apply String.eqb_eq in Hwf. subst t'.
      apply parse_value_number; [exact Hs|exact Hst].
    + apply String.eqb_eq in Hwf. subst t. reflexivity.
    + apply String.eqb_eq in Hwf. subst t. reflexivity.
    + apply String.eqb_eq in Hwf. subst t. reflexivity.
  - cbn [dumps_at]. rewrite encode_string_app. cbn -[scan_string].
    rewrite scan_string_escape_body. reflexivity.
  - destruct l as [|x xs]; [reflexivity|].
    cbn [dumps_at wf weight] in *. rewrite !append_assoc, append_cons, append_nil_l.
    pose proof (forallb_Forall_and _ _ _ Hwf IHl) as HF.
    assert (Hwx : wf x = true) by (inversion HF as [|? ? [H _] _]; exact H).
    erewrite parse_value_list_dumps;
      [|exact Hwx|rewrite skip_ws_indent; apply skip_ws_dumps; exact Hwx].
    rewrite (items_ok ind lvl rest xs x f HF) by lia. reflexivity.
  - destruct kvs as [|kx kvs]; [reflexivity|].
    cbn [dumps_at wf weight] in *. rewrite !append_assoc, append_cons, append_nil_l.
    apply andb_true_iff in Hwf as [Hwf Hdis].
    pose proof (forallb_Forall_and (fun kv => wf (snd kv)) (fun kv => roundtrips (snd kv))
                  _ Hwf IHk) as HF.
    erewrite parse_value_obj_encode; [|rewrite skip_ws_indent; apply skip_ws_encode].
    rewrite (members_ok ind lvl rest kvs kx f HF) by lia.
    rewrite (dict_of_pairs_distinct _ Hdis). reflexivity.
Qed.

Lemma length_newline_indent (ind n : nat) : (1 <= String.length (newline_indent ind n))%nat.
Proof. unfold newline_indent. cbn [String.length]. lia. Qed.

Lemma weight_le_length (v : json) :
  wf v = true -> forall ind lvl, (weight v <= String.length (dumps_at ind lvl v))%nat.
Proof.
  induction v as [|b|n|t|s|l IHl|kvs IHk] using json_ind'; intros Hwf ind lvl;
    try (destruct (dumps_start ind lvl _ Hwf) as (c & r & Hd & _); rewrite Hd;
         cbn [weight String.length]; lia).
  - destruct l as [|x xs]; [cbn; lia|].
    cbn [dumps_at wf weight] in *.
    pose proof (forallb_Forall_and _ _ _ Hwf IHl) as HF.
    rewrite !length_append.
    pose proof (length_newline_indent ind (S lvl)) as Hn.
    assert (Hsum : forall ys, Forall (fun y => wf y = true /\
                     forall ind lvl, (weight y <= String.length (dumps_at ind lvl y))%nat) ys ->
                   (list_sum (map (fun y => S (weight y)) ys)
                    <= String.length (concat_all (map (fun y => "," +:+ newline_indent ind (S lvl)
                                         +:+ dumps_at ind (S lvl) y) ys)))%nat).
    { induction ys as [|y ys IHy]; intros HFy; [cbn; lia|].
      inversion HFy as [|? ? [_ Hy] HFy']; subst.
      cbn [map list_sum fold_right concat_all]. rewrite !length_append.
      specialize (IHy HFy'). specialize (Hy ind (S lvl)).
      unfold list_sum in *. cbn [String.length] in *. lia. }
    inversion HF as [|? ? [_ Hx] HF']; subst.
    specialize (Hsum xs HF'). specialize (Hx ind (S lvl)).
    unfold list_sum in *. cbn [map fold_right String.length] in *. lia.
  - destruct kvs as [|kx kvs]; [cbn; lia|].
    cbn [dumps_at wf weight] in *.
    apply andb_true_iff in Hwf as [Hwf _].
    pose proof (forallb_Forall_and (fun kv => wf (snd kv))
                  (fun kv => forall ind lvl,
                     (weight (snd kv) <= String.length (dumps_at ind lvl (snd kv)))%nat)
                  _ Hwf IHk) as HF.
    rewrite !length_append.
    pose proof (length_newline_indent ind (S lvl)) as Hn.
    assert (Hsum : forall ys, Forall (fun kv => wf (snd kv) = true /\
                     forall ind lvl,
                       (weight (snd kv) <= String.length (dumps_at ind lvl (snd kv)))%nat) ys ->
                   (list_sum (map (fun kv => S (weight (snd kv))) ys)
                    <= String.length (concat_all (map (fun ky => "," +:+ newline_indent ind (S lvl)
                                         +:+ encode_string (fst ky) +:+ ": "
                                         +:+ dumps_at ind (S lvl) (snd ky)) ys)))%nat).
    { induction ys as [|y ys IHy]; intros HFy; [cbn; lia|].
      inversion HFy as [|? ? [_ Hy] HFy']; subst.
      cbn [map list_sum fold_right concat_all]. rewrite !length_append.
      specialize (IHy HFy'). specialize (Hy ind (S lvl)).
      unfold list_sum in *. cbn [String.length] in *. lia. }
    inversion HF as [|? ? [_ Hx] HF']; subst.
    specialize (Hsum kvs HF'). specialize (Hx ind (S lvl)).
    unfold list_sum in *. cbn [map fold_right String.length] in *. lia.
Qed.

(** [json.loads(json.dumps(v, indent=ind)) == v]. *)
Theorem loads_dumps (ind : nat) (v : json) : wf v = true -> loads (dumps ind v) = Some v.
Proof.
  intros Hwf. unfold loads, dumps.
  pose proof (skip_ws_dumps ind 0 v "" Hwf) as Hs. rewrite append_nil_r in Hs.
  pose proof (weight_le_length v Hwf ind 0) as Hw.
  pose proof (parse_dumps v Hwf ind 0%nat "" (S (String.length (dumps_at ind 0 v))) eq_refl) as Hp.
  rewrite append_nil_r in Hp.
  cbv zeta. rewrite Hs, Hp by lia. reflexivity.
Qed.

End JsonFacts.

(** * Session handling *)

Section SessionFacts.
Import Text Json Py Fs Ssh.

Lemma connect_cases (env : Env) (s : State) :
  let c := next_obj s in
  connect env s =
    if ssh_available env then
      if truthy_opt (password (config (self s))) || truthy_opt (key_filename (config (self s))) then
        let s1 := set_ssh_client (Some c) (bump_obj s) in
        let with_pw := truthy_opt (password (config (self s))) in
        match lib_connect env s1 with_pw with
        | None =>
            (Ok true, set_scp_client (Some (S c))
                        (bump_obj (log_event (EvConnect c with_pw) s1)))
        | Some _ => (Ok false, log_event (EvConnect c with_pw) s1)
        end
      else (Ok false, set_ssh_client (Some c) (bump_obj s))
    else (Ok false, s).
Proof.
  unfold connect, try_except, bind, new_SSHClient, new_SCPClient, client_connect.
  destruct (ssh_available env) eqn:Hav; cbn; [|reflexivity].
  destruct (truthy_opt (password (config (self s)))) eqn:Hpw; cbn.
  - destruct (lib_connect env _ true); reflexivity.
  - destruct (truthy_opt (key_filename (config (self s)))) eqn:Hk; cbn.
    + destruct (lib_connect env _ false); reflexivity.
    + reflexivity.
Qed.

(** C4, as stated, fails: after a refused key [connect] returns [False]
    and [ssh_client] still holds the client object made for the attempt. *)
Lemma connect_refused_keeps_client :
  fst (connect Scenario.host_refusing Scenario.fresh_state) = Ok false
  /\ ssh_client (self (snd (connect Scenario.host_refusing Scenario.fresh_state))) = Some 0%nat
  /\ scp_client (self (snd (connect Scenario.host_refusing Scenario.fresh_state))) = None.
Proof. repeat split; reflexivity. Qed.

(** C4 (amended): [connect] never raises, and an error of the library's
    connection attempt (authentication, network, timeout) makes it return
    [False]: it returns [True] only when the SSH library is available, a
    password or a key file is configured and the attempt did not raise.
    After such an error the attempt is the one event added.  Whenever it
    returns [False] the transfer client [scp_client] is what it was before
    the call, and [ssh_client] holds the client object created for this
    attempt (it is left as it was only when the client class itself cannot
    be instantiated); local files are untouched. *)
Theorem connect_failure_state (env : Env) (s : State) :
  let c := next_obj s in
  let s1 := set_ssh_client (Some c) (bump_obj s) in
  let with_pw := truthy_opt (password (config (self s))) in
  let configured := with_pw || truthy_opt (key_filename (config (self s))) in
  match lib_connect env s1 with_pw with
  | Some _ =>
      fst (connect env s) = Ok false
      /\ (if ssh_available env && configured
          then trace (snd (connect env s)) = (trace s ++ EvConnect c with_pw :: nil)%list
          else trace (snd (connect env s)) = trace s)
  | None => fst (connect env s) = Ok (ssh_available env && configured)
  end
  /\ match connect env s with
     | (Ok true, s') =>
         ssh_available env = true /\ configured = true
         /\ lib_connect env s1 with_pw = None
     | (Ok false, s') =>
         scp_client (self s') = scp_client (self s)
         /\ ssh_client (self s') =
              (if ssh_available env then Some (next_obj s) else ssh_client (self s))
         /\ fs s' = fs s
     | (Raise _, _) => False
     end.
Proof.
  cbv zeta. rewrite connect_cases. cbv zeta.
  destruct (ssh_available env); cbn [andb].
  - destruct (truthy_opt (password (config (self s))) || truthy_opt (key_filename (config (self s)))).
    + destruct (lib_connect env _ _) eqn:Hlib; cbn; auto.
    + destruct (lib_connect env _ _); cbn; auto.
  - destruct (lib_connect env _ _); cbn; auto.
Qed.

(** C8, as stated, fails: a second [connect] on a connected manager
    succeeds but installs two new client objects. *)
Lemma reconnect_replaces_session :
  ssh_client (self Scenario.connected_state) = Some 0%nat
  /\ scp_client (self Scenario.connected_state) = Some 1%nat
  /\ fst (connect Scenario.host_done Scenario.connected_state) = Ok true
  /\ ssh_client (self (snd (connect Scenario.host_done Scenario.connected_state))) = Some 2%nat
  /\ scp_client (self (snd (connect Scenario.host_done Scenario.connected_state))) = Some 3%nat
  /\ self (snd (connect Scenario.host_done Scenario.connected_state)) <> self Scenario.connected_state.
Proof. repeat split; try reflexivity. intro H. discriminate H. Qed.

(** C8 (amended): [connect] has no guard for an existing session.  On a
    connected manager whose clients [c] and [p] were created earlier, a
    successful call returns [True] with [ssh_client] and [scp_client]
    replaced by newly created objects, and a failed call returns [False]
    with [ssh_client] replaced and [scp_client] kept; in both cases the old
    clients are not closed (the only event added is the connection
    attempt).  Which of the two happens follows the library's answer to
    the new attempt: an error gives [False], and no error gives [True]
    when a password or a key file is configured. *)
Theorem reconnect_opens_new_session (env : Env) (s : State) (c p : nat)
  (Hc : ssh_client (self s) = Some c) (Hp : scp_client (self s) = Some p)
  (Hold : (c < next_obj s)%nat /\ (p < next_obj s)%nat)
  (Hav : ssh_available env = true) :
  match connect env s with
  | (Ok true, s') =>
      ssh_client (self s') = Some (next_obj s) /\ ssh_client (self s') <> Some c
      /\ scp_client (self s') = Some (S (next_obj s)) /\ scp_client (self s') <> Some p
      /\ exists pw, trace s' = (trace s ++ EvConnect (next_obj s) pw :: nil)%list
  | (Ok false, s') =>
      ssh_client (self s') = Some (next_obj s) /\ ssh_client (self s') <> Some c
      /\ scp_client (self s') = Some p
      /\ (trace s' = trace s \/ exists pw, trace s' = (trace s ++ EvConnect (next_obj s) pw :: nil)%list)
  | (Raise _, _) => False
  end
  /\ match lib_connect env (set_ssh_client (Some (next_obj s)) (bump_obj s))
            (truthy_opt (password (config (self s)))) with
     | Some _ => fst (connect env s) = Ok false
     | None =>
         fst (connect env s)
         = Ok (truthy_opt (password (config (self s)))
               || truthy_opt (key_filename (config (self s))))
     end.
Proof.
  destruct Hold as [Hlc Hlp].
  assert (Hnc : Some (next_obj s) <> Some c) by (intro E; inversion E; lia).
  assert (Hnp : Some (S (next_obj s)) <> Some p) by (intro E; inversion E; lia).
  rewrite connect_cases. cbv zeta. rewrite Hav.
  destruct (truthy_opt (password (config (self s))) || truthy_opt (key_filename (config (self s)))).
  - destruct (lib_connect env _ _); cbn; repeat split; eauto.
  - destruct (lib_connect env _ _); cbn; repeat split; eauto.
Qed.

Lemma reconnect_opens_new_session_witness :
  match connect Scenario.host_done Scenario.connected_state with
  | (Ok true, s') =>
      ssh_client (self s') = Some 2%nat /\ ssh_client (self s') <> Some 0%nat
      /\ scp_client (self s') = Some 3%nat /\ scp_client (self s') <> Some 1%nat
      /\ exists pw, trace s' = (trace Scenario.connected_state ++ EvConnect 2 pw :: nil)%list
  | (Ok false, s') =>
      ssh_client (self s') = Some 2%nat /\ ssh_client (self s') <> Some 0%nat
      /\ scp_client (self s') = Some 1%nat
      /\ (trace s' = trace Scenario.connected_state
          \/ exists pw, trace s' = (trace Scenario.connected_state ++ EvConnect 2 pw :: nil)%list)
  | (Raise _, _) => False
  end
  /\ fst (connect Scenario.host_done Scenario.connected_state) = Ok true.
Proof.
  apply (reconnect_opens_new_session Scenario.host_done Scenario.connected_state 0 1).
  - reflexivity.
  - reflexivity.
  - split; vm_compute; lia.
  - reflexivity.
Defined.

(** C9: [disconnect] never raises and leaves both clients null; on a
    manager that is not connected it changes nothing at all; a second call
    right after the first changes nothing and raises nothing; local files
    are never touched. *)
Theorem disconnect_idempotent (s : State) (cfg : SSHConfig) (f : gmap string node)
  (t : list event) (n : nat) :
  fst (disconnect s) = Ok tt
  /\ ssh_client (self (snd (disconnect s))) = None
  /\ scp_client (self (snd (disconnect s))) = None
  /\ fs (snd (disconnect s)) = fs s
  /\ disconnect (snd (disconnect s)) = (Ok tt, snd (disconnect s))
  /\ disconnect {| self := new_manager cfg; fs := f; trace := t; next_obj := n |}
     = (Ok tt, {| self := new_manager cfg; fs := f; trace := t; next_obj := n |}).
Proof.
  destruct s as [[cfg0 [c|] [p|]] f0 t0 n0]; cbn; repeat split; reflexivity.
Qed.

End SessionFacts.

(** * Remote commands, transfers and the launcher's staging step *)

Section TransferFacts.
Import Text Json Py Fs Ssh.

Lemma execute_command_eq (env : Env) (command : string) (tmo : Z) (s : State) :
  execute_command env command tmo s =
    match ssh_client (self s) with
    | None => (Raise (Exn ConnectionError "SSH client not connected"), s)
    | Some c => (lib_exec env s command tmo, log_event (EvExec c command tmo) s)
    end.
Proof.
  unfold execute_command, bind, get, try_except, modify, lift, raise.
  destruct (ssh_client (self s)); [|reflexivity].
  destruct (lib_exec env s command tmo); reflexivity.
Qed.

Lemma upload_file_eq (env : Env) (l r : string) (b : bool) (s : State) :
  upload_file env l r b s =
    match scp_client (self s) with
    | None => (Raise (Exn ConnectionError "SCP client not connected"), s)
    | Some p =>
        (match lib_put env s l r b with None => Ok tt | Some e => Raise e end,
         log_event (EvPut p l r b) s)
    end.
Proof.
  unfold upload_file, bind, get, try_except, modify, ret, raise.
  destruct (scp_client (self s)); [|reflexivity].
  destruct (lib_put env s l r b); reflexivity.
Qed.

Lemma mkstemp_write_fresh (f : gmap string node) (cands : list string) (content name : string)
  (f' : gmap string node) :
  mkstemp_write f cands content = Ok (name, f') ->
  f !! name = None /\ f' = <[name := File content]> f.
Proof.
  induction cands as [|x rest IH]; cbn; [discriminate|].
  destruct (is_anchor (path_of x)); [exact IH|].
  destruct (f !! path_str (path_of x)) eqn:Hk; [exact IH|].
  destruct (is_dir f (path_parent (path_of x))); [|discriminate].
  intros E. inversion E; subst. auto.
Qed.

(** C10: [_upload_string_as_file] leaves the local disk, the manager and
    the object counter exactly as they were, whatever the environment does.
    When a temporary file is created (connected manager, a usable name),
    its name was free before the call and is free again after it, both when
    the upload succeeds and when it raises; the exception of a failed upload
    is passed on after the file is removed. *)
Theorem upload_string_restores_disk (env : Env) (s : State) (content remote_path : string) :
  let r := _upload_string_as_file env content remote_path s in
  fs (snd r) = fs s /\ self (snd r) = self s /\ next_obj (snd r) = next_obj s
  /\ match ssh_client (self s), mkstemp_write (fs s) (tmp_names env s) content with
     | Some _, Ok (name, f) =>
         fs s !! name = None /\ f !! name = Some (File content)
         /\ fs (snd r) !! name = None
         /\ fst r = fst (upload_file env name remote_path false (set_fs f s))
     | Some _, Raise e => r = (Raise e, s)
     | None, _ => r = (Raise (Exn ConnectionError "SSH client not connected"), s)
     end.
Proof.
  cbv zeta. unfold _upload_string_as_file, bind, get, try_except, try_finally, raise.
  destruct (ssh_client (self s)) as [c|] eqn:Hc; [|cbn; auto].
  destruct (mkstemp_write (fs s) (tmp_names env s) content) as [[name f]|e] eqn:Hm; [|cbn; auto].
  destruct (mkstemp_write_fresh _ _ _ _ _ Hm) as [Hfree Hf].
  rewrite upload_file_eq. cbn.
  assert (Hun : unlink f name = Ok (fs s)).
  { unfold unlink. rewrite Hf, lookup_insert_eq.
    f_equal. apply delete_insert_id. exact Hfree. }
  destruct (scp_client (self s)) as [p|] eqn:Hp; cbn.
  - rewrite Hun.
    destruct (lib_put env (set_fs f s) name remote_path false); cbn;
      repeat split; auto; subst f; apply lookup_insert_eq.
  - rewrite Hun. cbn.
    repeat split; auto; subst f; apply lookup_insert_eq.
Qed.

(** C5, as stated, fails: with the role file missing, a connected manager
    first runs [mkdir -p] for the workspace on the remote host and only then
    raises [FileNotFoundError]. *)
Lemma missing_role_file_after_mkdir :
  let tc := {| model_id := "m1"; role_file := "roles/missing.json"; batch_size := 4;
               epochs := 1; learning_rate := "2e-05"; use_lora := true;
               remote_workspace := "/root/workspace" |} in
  let r := upload_training_files Scenario.host_done _create_training_script tc
             Scenario.connected_state in
  path_exists (fs Scenario.connected_state) (path_of (role_file tc)) = false
  /\ fst r = Raise (Exn FileNotFoundError "Role file not found: roles/missing.json")
  /\ trace (snd r)
     = (trace Scenario.connected_state ++ EvExec 0 "mkdir -p /root/workspace/m1" 60 :: nil)%list.
Proof. repeat split; reflexivity. Qed.

(** C5 (amended): when the local role file does not exist,
    [upload_training_files] uploads nothing and changes no local file.  On
    a manager without a session it raises [ConnectionError] with no remote
    I/O; otherwise it runs exactly one remote command, [mkdir -p] of the
    workspace, and then raises [FileNotFoundError] (or passes on the
    exception of that command). *)
Theorem upload_missing_role_file (env : Env) (gen : TrainingConfig -> Result string)
  (s : State) (tc : TrainingConfig)
  (Hmiss : path_exists (fs s) (path_of (role_file tc)) = false) :
  let mk := "mkdir -p " +:+ (remote_workspace tc +:+ "/" +:+ model_id tc) in
  upload_training_files env gen tc s =
    match ssh_client (self s) with
    | None => (Raise (Exn ConnectionError "SSH client not connected"), s)
    | Some c =>
        (match lib_exec env s mk 60 with
         | Ok _ => Raise (Exn FileNotFoundError
                            ("Role file not found: " +:+ path_str (path_of (role_file tc))))
         | Raise e => Raise e
         end,
         log_event (EvExec c mk 60) s)
    end.
Proof.
  cbv zeta. unfold upload_training_files, try_except, bind at 1.
  rewrite execute_command_eq.
  destruct (ssh_client (self s)) as [c|]; [|reflexivity].
  destruct (lib_exec env s _ 60) as [res|e]; [|reflexivity].
  unfold bind, get. cbn [fs log_event]. rewrite Hmiss. reflexivity.
Qed.

Lemma upload_missing_role_file_witness :
  upload_training_files Scenario.host_done _create_training_script
    {| model_id := "m1"; role_file := "roles/missing.json"; batch_size := 4;
       epochs := 1; learning_rate := "2e-05"; use_lora := true;
       remote_workspace := "/root/workspace" |} Scenario.connected_state
  = (Raise (Exn FileNotFoundError "Role file not found: roles/missing.json"),
     log_event (EvExec 0 "mkdir -p /root/workspace/m1" 60) Scenario.connected_state).
Proof.
  apply (upload_missing_role_file Scenario.host_done _create_training_script
           Scenario.connected_state
           {| model_id := "m1"; role_file := "roles/missing.json"; batch_size := 4;
              epochs := 1; learning_rate := "2e-05"; use_lora := true;
              remote_workspace := "/root/workspace" |}).
  reflexivity.
Defined.

End TransferFacts.

(** * The job registry and the status tracker *)

Section TrackerFacts.
Import Text Json Py Fs Ssh.

Lemma load_job_info_eq (job_id : string) (s : State) :
  _load_job_info job_id s =
    (Ok match read_file (fs s) (job_file job_id) with
        | Ok text => match loads text with Some v => v | None => JNull end
        | Raise _ => JNull
        end, s).
Proof.
  unfold _load_job_info, bind, get, try_except, lift, ret, raise, path_exists, read_file.
  destruct (is_anchor (job_file job_id)); cbn; [reflexivity|].
  destruct (fs s !! path_str (job_file job_id)) as [[text|]|]; cbn; try reflexivity.
  destruct (loads text); reflexivity.
Qed.

(** C6, as stated, fails: a record file that cannot be parsed gives the
    same result, Python's [None], as no record file at all. *)
Lemma corrupt_record_looks_absent :
  read_file Scenario.corrupt_disk (job_file "remote_m1_4242") = Ok "{not json"
  /\ loads "{not json" = None
  /\ fst (_load_job_info "remote_m1_4242"
            (Scenario.with_disk Scenario.corrupt_disk Scenario.fresh_state)) = Ok JNull
  /\ path_exists Scenario.local_disk (job_file "remote_m1_4242") = false
  /\ fst (_load_job_info "remote_m1_4242" Scenario.fresh_state) = Ok JNull.
Proof. repeat split; reflexivity. Qed.

(** C6 (amended): [_load_job_info] never raises and changes nothing; it
    returns [None] when no registry file exists for the id, and it returns
    the same [None] when the file exists but cannot be read or parsed (the
    parse error is only logged). *)
Theorem load_absent_or_corrupt (job_id : string) (s : State)
  (H : path_exists (fs s) (job_file job_id) = false
       \/ (path_exists (fs s) (job_file job_id) = true
           /\ forall text, read_file (fs s) (job_file job_id) = Ok text -> loads text = None)) :
  _load_job_info job_id s = (Ok JNull, s).
Proof.
  rewrite load_job_info_eq.
  destruct H as [Habs | [_ Hbad]].
  - unfold path_exists in Habs. unfold read_file.
    destruct (is_anchor (job_file job_id)); [discriminate|].
    destruct (fs s !! path_str (job_file job_id)); [discriminate|reflexivity].
  - destruct (read_file (fs s) (job_file job_id)) as [text|e]; [|reflexivity].
    rewrite (Hbad text eq_refl). reflexivity.
Qed.

Lemma load_absent_or_corrupt_witness :
  _load_job_info "remote_m1_4242" (Scenario.with_disk Scenario.corrupt_disk Scenario.fresh_state)
  = (Ok JNull, Scenario.with_disk Scenario.corrupt_disk Scenario.fresh_state).
Proof.
  apply (load_absent_or_corrupt "remote_m1_4242"
           (Scenario.with_disk Scenario.corrupt_disk Scenario.fresh_state)).
  right. split; [reflexivity|].
  intros text Hr. vm_compute in Hr. inversion Hr. reflexivity.
Defined.

Section Poll.

Variable env : Env.
Variables (job_id : string) (s : State) (info workspace pid : json).
Variables (rc : Z) (out err : string).

Hypothesis Hrecord : _load_job_info job_id s = (Ok info, s) /\ truthy info = true.
Hypothesis Hfields :
  getitem info "remote_workspace" = Ok workspace /\ getitem info "pid" = Ok pid.
Hypothesis Hprobe : fst (execute_command env (probe_cmd pid) 60 s) = Ok (rc, out, err).

Let s1 : State := snd (execute_command env (probe_cmd pid) 60 s).

Lemma check_after_probe :
  check_training_status env job_id s =
    try_except
      (if contains "running" out then
         bind (execute_command env ("tail -20 " +:+ str workspace +:+ "/training.log") 60)
           (fun r1 => let '(_, log_output, _) := r1 in
                      ret (status_dict "running" pid workspace "latest_log" log_output))
       else
         bind (execute_command env ("ls -la " +:+ str workspace +:+ "/models/") 60)
           (fun r2 => let '(_, model_output, _) := r2 in
              if contains "model" (lower model_output) then
                ret (status_dict "completed" pid workspace "model_files" model_output)
              else
                bind (execute_command env ("tail -50 " +:+ str workspace +:+ "/training.log") 60)
                  (fun r3 => let '(_, error_log, _) := r3 in
                             ret (status_dict "failed" pid workspace "error_log" error_log))))
      (fun exc => ret (error_dict exc)) s1.
Proof.
  destruct Hrecord as [Hload Htr]. destruct Hfields as [Hws Hpid].
  unfold check_training_status, try_except at 1, bind at 1.
  rewrite Hload, Htr. cbn [negb].
  unfold bind at 1, lift at 1. rewrite Hws.
  unfold bind at 1, lift at 1. rewrite Hpid.
  unfold bind at 1. fold (probe_cmd pid).
  subst s1. destruct (execute_command env (probe_cmd pid) 60 s) as [r s'] eqn:Hex.
  cbn in Hprobe. subst r. cbn [snd].
  unfold try_except. reflexivity.
Qed.

(** C2: for a job with a registry record whose liveness probe answers
    that the process is alive (its output contains [running]),
    [check_training_status] returns [running] with the last 20 log lines,
    or [error] with the exception text when reading the log raises; it
    never returns [completed] or [failed]. *)
Theorem alive_is_running_or_error (Halive : contains "running" out = true) :
  check_training_status env job_id s =
    match execute_command env ("tail -20 " +:+ str workspace +:+ "/training.log") 60 s1 with
    | (Ok (_, log_output, _), s2) =>
        (Ok (status_dict "running" pid workspace "latest_log" log_output), s2)
    | (Raise e, s2) => (Ok (error_dict e), s2)
    end
  /\ (status_of_result (fst (check_training_status env job_id s)) = Some (JStr "running")
      \/ status_of_result (fst (check_training_status env job_id s)) = Some (JStr "error")).
Proof.
  rewrite check_after_probe, Halive. unfold try_except, bind.
  destruct (execute_command env _ 60 s1) as [[[[a log_output] b]|e] s2]; cbn; auto.
Qed.

(** C1 (amended): for a job with a registry record whose liveness probe
    answers that the process is gone (its output lacks [running]), the
    listing of [models/] decides: [completed], with the listing attached,
    exactly when the lower-cased listing text contains [model]; otherwise
    [failed], with the last 50 log lines attached; and [error] when the
    listing or the log command raises. *)
Theorem gone_is_classified_by_marker (Hgone : contains "running" out = false) :
  check_training_status env job_id s =
    match execute_command env ("ls -la " +:+ str workspace +:+ "/models/") 60 s1 with
    | (Ok (_, model_output, _), s2) =>
        if contains "model" (lower model_output)
        then (Ok (status_dict "completed" pid workspace "model_files" model_output), s2)
        else
          match execute_command env ("tail -50 " +:+ str workspace +:+ "/training.log") 60 s2 with
          | (Ok (_, error_log, _), s3) =>
              (Ok (status_dict "failed" pid workspace "error_log" error_log), s3)
          | (Raise e, s3) => (Ok (error_dict e), s3)
          end
    | (Raise e, s2) => (Ok (error_dict e), s2)
    end.
Proof.
  rewrite check_after_probe, Hgone. unfold try_except, bind.
  destruct (execute_command env ("ls -la " +:+ str workspace +:+ "/models/") 60 s1)
    as [[[[a model_output] b]|e] s2]; [|reflexivity].
  destruct (contains "model" (lower model_output)); [reflexivity|].
  destruct (execute_command env ("tail -50 " +:+ str workspace +:+ "/training.log") 60 s2)
    as [[[[a' error_log] b']|e] s3]; reflexivity.
Qed.

End Poll.

Lemma alive_is_running_or_error_witness :
  check_training_status Scenario.host_running "remote_m1_4242" Scenario.tracked_state =
    match execute_command Scenario.host_running
            ("tail -20 " +:+ str (JStr "/root/workspace/m1") +:+ "/training.log") 60
            (snd (execute_command Scenario.host_running (probe_cmd (JStr "4242")) 60
                    Scenario.tracked_state)) with
    | (Ok (_, log_output, _), s2) =>
        (Ok (status_dict "running" (JStr "4242") (JStr "/root/workspace/m1")
               "latest_log" log_output), s2)
    | (Raise e, s2) => (Ok (error_dict e), s2)
    end
  /\ (status_of_result (fst (check_training_status Scenario.host_running "remote_m1_4242"
                               Scenario.tracked_state)) = Some (JStr "running")
      \/ status_of_result (fst (check_training_status Scenario.host_running "remote_m1_4242"
                                  Scenario.tracked_state)) = Some (JStr "error")).
Proof.
  apply (alive_is_running_or_error Scenario.host_running "remote_m1_4242"
           Scenario.tracked_state Scenario.demo_record (JStr "/root/workspace/m1")
           (JStr "4242") 0 ("running" +:+ String nl "") "").
  - split; vm_compute; reflexivity.
  - split; reflexivity.
  - reflexivity.
  - reflexivity.
Defined.

(** C1, as stated, fails: the process is gone and [models/] holds a file,
    [weights.bin], so its listing is not empty, yet the status is [failed]:
    the listing has no [model] in it. *)
Lemma nonempty_listing_reported_failed :
  _load_job_info "remote_m1_4242" Scenario.tracked_state
    = (Ok Scenario.demo_record, Scenario.tracked_state)
  /\ fst (execute_command Scenario.host_done (probe_cmd (JStr "4242")) 60 Scenario.tracked_state)
     = Ok (0, "stopped" +:+ String nl "", "")
  /\ fst (execute_command Scenario.host_done "ls -la /root/workspace/m1/models/" 60
            Scenario.tracked_state)
     = Ok (0, "total 4" +:+ String nl "-rw-r--r-- 1 root root 19 Nov  4 12:00 weights.bin"
               +:+ String nl "", "")
  /\ fst (check_training_status Scenario.host_done "remote_m1_4242" Scenario.tracked_state)
     = Ok (status_dict "failed" (JStr "4242") (JStr "/root/workspace/m1") "error_log"
             ("Epoch 1 completed" +:+ String nl "")).
Proof. repeat split; vm_compute; reflexivity. Qed.

Lemma gone_is_classified_by_marker_witness :
  check_training_status Scenario.host_done "remote_m1_4242" Scenario.tracked_state =
    match execute_command Scenario.host_done
            ("ls -la " +:+ str (JStr "/root/workspace/m1") +:+ "/models/") 60
            (snd (execute_command Scenario.host_done (probe_cmd (JStr "4242")) 60
                    Scenario.tracked_state)) with
    | (Ok (_, model_output, _), s2) =>
        if contains "model" (lower model_output)
        then (Ok (status_dict "completed" (JStr "4242") (JStr "/root/workspace/m1")
                    "model_files" model_output), s2)
        else
          match execute_command Scenario.host_done
                  ("tail -50 " +:+ str (JStr "/root/workspace/m1") +:+ "/training.log") 60 s2 with
          | (Ok (_, error_log, _), s3) =>
              (Ok (status_dict "failed" (JStr "4242") (JStr "/root/workspace/m1")
                     "error_log" error_log), s3)
          | (Raise e, s3) => (Ok (error_dict e), s3)
          end
    | (Raise e, s2) => (Ok (error_dict e), s2)
    end.
Proof.
  apply (gone_is_classified_by_marker Scenario.host_done "remote_m1_4242"
           Scenario.tracked_state Scenario.demo_record (JStr "/root/workspace/m1")
           (JStr "4242") 0 ("stopped" +:+ String nl "") "").
  - split; vm_compute; reflexivity.
  - split; reflexivity.
  - reflexivity.
  - reflexivity.
Defined.

End TrackerFacts.

(** * Registry round trip and the launcher *)

Section RegistryFacts.
Import Text Json Py Fs Ssh.

Lemma save_job_info_eq (job_id : string) (tc : TrainingConfig) (workspace pid : string)
  (s : State) :
  _save_job_info job_id tc workspace pid s =
    match mkdir_exist_ok (fs s) (path_parent (job_file job_id)) with
    | Raise e => (Raise e, s)
    | Ok f1 =>
        match write_file f1 (job_file job_id)
                (dumps 2 (job_info_of job_id tc workspace pid)) with
        | Raise e => (Raise e, set_fs f1 s)
        | Ok f2 => (Ok tt, set_fs f2 (set_fs f1 s))
        end
    end.
Proof.
  unfold _save_job_info, bind, get, lift, modify.
  destruct (mkdir_exist_ok (fs s) _) as [f1|e]; [|reflexivity].
  destruct (write_file f1 _ _) as [f2|e]; reflexivity.
Qed.

Lemma write_file_ok (f f2 : gmap string node) (p : Path) (content : string) :
  write_file f p content = Ok f2 ->
  is_anchor p = false /\ f2 = <[path_str p := File content]> f.
Proof.
  unfold write_file. destruct (is_anchor p); [discriminate|].
  destruct (f !! path_str p) as [[c|]|]; try discriminate;
    destruct (is_dir f (path_parent p)); try discriminate;
    intros E; inversion E; auto.
Qed.

Lemma job_info_wf (job_id : string) (tc : TrainingConfig) (workspace pid : string) :
  float_ok (learning_rate tc) = true -> wf (job_info_of job_id tc workspace pid) = true.
Proof. intros H. cbn. rewrite H. reflexivity. Qed.

(** What [_save_job_info] wrote is what [_load_job_info] reads back. *)
Lemma load_after_save (job_id : string) (tc : TrainingConfig) (workspace pid : string)
  (s s' : State) :
  float_ok (learning_rate tc) = true ->
  _save_job_info job_id tc workspace pid s = (Ok tt, s') ->
  _load_job_info job_id s' = (Ok (job_info_of job_id tc workspace pid), s').
Proof.
  intros Hfl Hsave. rewrite save_job_info_eq in Hsave.
  destruct (mkdir_exist_ok (fs s) _) as [f1|e]; [|discriminate].
  destruct (write_file f1 _ _) as [f2|e] eqn:Hw; [|discriminate].
  inversion Hsave; subst s'. clear Hsave.
  destruct (write_file_ok _ _ _ _ Hw) as [Hanc Hf2].
  rewrite load_job_info_eq. cbn [fs set_fs]. unfold read_file.
  rewrite Hanc, Hf2, lookup_insert_eq.
  rewrite (loads_dumps 2 _ (job_info_wf job_id tc workspace pid Hfl)). reflexivity.
Qed.

(** C7: after a successful [_save_job_info] the record [_load_job_info]
    returns for the same id is the saved one: its [job_id], [model_id],
    [remote_workspace], [pid] and [config] entries are the values passed to
    save (the float [learning_rate] being a float text). *)
Theorem save_load_roundtrip (job_id : string) (tc : TrainingConfig) (workspace pid : string)
  (s s' : State)
  (Hfloat : float_ok (learning_rate tc) = true)
  (Hsave : _save_job_info job_id tc workspace pid s = (Ok tt, s')) :
  exists record,
    _load_job_info job_id s' = (Ok record, s')
    /\ getitem record "job_id" = Ok (JStr job_id)
    /\ getitem record "model_id" = Ok (JStr (model_id tc))
    /\ getitem record "remote_workspace" = Ok (JStr workspace)
    /\ getitem record "pid" = Ok (JStr pid)
    /\ getitem record "config" = Ok (config_dict tc)
    /\ record = job_info_of job_id tc workspace pid.
Proof.
  exists (job_info_of job_id tc workspace pid).
  split; [exact (load_after_save _ _ _ _ _ _ Hfloat Hsave)|].
  repeat split; reflexivity.
Qed.

Lemma save_load_roundtrip_witness :
  exists record,
    _load_job_info "remote_m1_4242"
      (snd (_save_job_info "remote_m1_4242" Scenario.demo_config "/root/workspace/m1" "4242"
              Scenario.fresh_state))
    = (Ok record,
       snd (_save_job_info "remote_m1_4242" Scenario.demo_config "/root/workspace/m1" "4242"
              Scenario.fresh_state))
    /\ getitem record "job_id" = Ok (JStr "remote_m1_4242")
    /\ getitem record "model_id" = Ok (JStr "m1")
    /\ getitem record "remote_workspace" = Ok (JStr "/root/workspace/m1")
    /\ getitem record "pid" = Ok (JStr "4242")
    /\ getitem record "config" = Ok (config_dict Scenario.demo_config)
    /\ record = job_info_of "remote_m1_4242" Scenario.demo_config "/root/workspace/m1" "4242".
Proof.
  apply (save_load_roundtrip "remote_m1_4242" Scenario.demo_config "/root/workspace/m1" "4242"
           Scenario.fresh_state).
  - vm_compute. reflexivity.
  - reflexivity.
Defined.

End RegistryFacts.

Section LaunchFacts.
Import Text Json Py Fs Ssh.

Variable env : Env.
Variable gen : TrainingConfig -> Result string.

Lemma same_files_refl (f : gmap string node) : same_files f f.
Proof. intros k text. reflexivity. Qed.

Lemma execute_command_fs (command : string) (tmo : Z) (s : State) :
  fs (snd (execute_command env command tmo s)) = fs s.
Proof. rewrite execute_command_eq. destruct (ssh_client (self s)); reflexivity. Qed.

Lemma upload_file_fs (l r : string) (b : bool) (s : State) :
  fs (snd (upload_file env l r b s)) = fs s.
Proof. rewrite upload_file_eq. destruct (scp_client (self s)); reflexivity. Qed.

Lemma upload_string_fs (content remote_path : string) (s : State) :
  fs (snd (_upload_string_as_file env content remote_path s)) = fs s.
Proof.
  unfold _upload_string_as_file, bind, get, try_except, try_finally, raise.
  destruct (ssh_client (self s)) as [c|]; [|reflexivity].
  destruct (mkstemp_write (fs s) (tmp_names env s) content) as [[name f]|e] eqn:Hm;
    [|reflexivity].
  destruct (mkstemp_write_fresh _ _ _ _ _ Hm) as [Hfree Hf].
  pose proof (upload_file_fs name remote_path false (set_fs f s)) as Hup.
  destruct (upload_file env name remote_path false (set_fs f s)) as [r s1].
  cbn [snd fs set_fs] in Hup. rewrite Hup.
  unfold unlink. rewrite Hf, lookup_insert_eq, (delete_insert_id _ _ _ Hfree).
  destruct r; reflexivity.
Qed.

Lemma upload_training_files_fs (tc : TrainingConfig) (s : State) :
  fs (snd (upload_training_files env gen tc s)) = fs s.
Proof.
  unfold upload_training_files, try_except, bind, get, raise, lift, ret.
  pose proof (execute_command_fs ("mkdir -p " +:+ (remote_workspace tc +:+ "/" +:+ model_id tc))
                60 s) as H1.
  destruct (execute_command env _ 60 s) as [[r1|e1] s1]; cbn [snd] in H1; [|exact H1].
  destruct (path_exists (fs s1) (path_of (role_file tc))); [|exact H1].
  pose proof (upload_file_fs (path_str (path_of (role_file tc)))
                ((remote_workspace tc +:+ "/" +:+ model_id tc) +:+ "/role.json") false s1) as H2.
  destruct (upload_file env _ _ false s1) as [[u|e2] s2]; cbn [snd] in H2;
    [|cbn [snd]; congruence].
  destruct (gen tc) as [script|e3]; [|cbn [snd]; congruence].
  pose proof (upload_string_fs script
                ((remote_workspace tc +:+ "/" +:+ model_id tc) +:+ "/train.py") s2) as H3.
  destruct (_upload_string_as_file env script _ s2) as [[u3|e4] s3]; cbn [snd] in H3 |- *;
    congruence.
Qed.

Lemma start_training_eq (tc : TrainingConfig) (s : State) :
  start_training env gen tc s =
    match upload_training_files env gen tc s with
    | (Raise e, s1) => (Raise e, s1)
    | (Ok workspace, s1) =>
        match execute_command env (launch_cmd workspace) 60 s1 with
        | (Raise e, s2) => (Raise e, s2)
        | (Ok (rc, out, err), s2) =>
            if negb (rc =? 0)
            then (Raise (Exn RuntimeError ("Failed to start training: " +:+ err)), s2)
            else
              let job_id := "remote_" +:+ model_id tc +:+ "_" +:+ strip out in
              match _save_job_info job_id tc workspace (strip out) s2 with
              | (Ok _, s3) => (Ok job_id, s3)
              | (Raise e, s3) => (Raise e, s3)
              end
        end
    end.
Proof.
  unfold start_training, try_except, bind at 1.
  destruct (upload_training_files env gen tc s) as [[workspace|e] s1]; [|reflexivity].
  unfold bind at 1. fold (launch_cmd workspace).
  destruct (execute_command env (launch_cmd workspace) 60 s1) as [[[[rc out] err]|e] s2];
    [|reflexivity].
  unfold bind, raise, ret. destruct (negb (rc =? 0)); [reflexivity|].
  cbv zeta.
  destruct (_save_job_info _ tc workspace (strip out) s2) as [[u|e] s3]; reflexivity.
Qed.

Lemma mkdir_same_files (f f1 : gmap string node) (p : Path) :
  mkdir_exist_ok f p = Ok f1 -> same_files f f1.
Proof.
  unfold mkdir_exist_ok. destruct (is_anchor p).
  - intros E; inversion E; apply same_files_refl.
  - destruct (f !! path_str p) as [[c|]|] eqn:Hk; try discriminate.
    + intros E; inversion E; apply same_files_refl.
    + destruct (is_dir f (path_parent p)); [|discriminate].
      intros E; inversion E; subst. intros k text.
      destruct (decide (path_str p = k)) as [Heq|Hne].
      * subst k. rewrite lookup_insert_eq, Hk. split; discriminate.
      * rewrite lookup_insert_ne by exact Hne. reflexivity.
Qed.

Lemma save_raise_same_files (job_id : string) (tc : TrainingConfig) (workspace pid : string)
  (s s' : State) (e : exn) :
  _save_job_info job_id tc workspace pid s = (Raise e, s') -> same_files (fs s) (fs s').
Proof.
  rewrite save_job_info_eq.
  destruct (mkdir_exist_ok (fs s) _) as [f1|e1] eqn:Hm.
  - destruct (write_file f1 _ _) as [f2|e2]; [discriminate|].
    intros E; inversion E; subst. cbn [fs set_fs]. exact (mkdir_same_files _ _ _ Hm).
  - intros E; inversion E; subst. apply same_files_refl.
Qed.

Lemma load_same_files (job_id : string) (s s' : State) :
  same_files (fs s) (fs s') ->
  fst (_load_job_info job_id s') = fst (_load_job_info job_id s).
Proof.
  intros Hsame. rewrite !load_job_info_eq. cbn [fst]. unfold read_file.
  destruct (is_anchor (job_file job_id)); [reflexivity|].
  destruct (fs s' !! path_str (job_file job_id)) as [[c'|]|] eqn:H'.
  - apply Hsame in H'. rewrite H'. reflexivity.
  - destruct (fs s !! path_str (job_file job_id)) as [[c|]|] eqn:H; try reflexivity.
    apply Hsame in H. congruence.
  - destruct (fs s !! path_str (job_file job_id)) as [[c|]|] eqn:H; try reflexivity.
    apply Hsame in H. congruence.
Qed.

Lemma known_job_not_not_found (env' : Env) (job_id : string) (info : json) (s : State) :
  _load_job_info job_id s = (Ok info, s) -> truthy info = true ->
  status_of_result (fst (check_training_status env' job_id s)) <> Some (JStr "not_found").
Proof.
  intros Hload Htr.
  unfold check_training_status, try_except, bind at 1. rewrite Hload, Htr. cbn [negb].
  unfold bind, lift, ret.
  destruct (getitem info "remote_workspace") as [workspace|e]; [|cbn; discriminate].
  destruct (getitem info "pid") as [pid|e]; [|cbn; discriminate].
  destruct (execute_command env' _ 60 s) as [[[[rc out] err]|e] s1]; [|cbn; discriminate].
  destruct (contains "running" out).
  - destruct (execute_command env' _ 60 s1) as [[[[a b] c]|e] s2]; cbn; discriminate.
  - destruct (execute_command env' _ 60 s1) as [[[[a b] c]|e] s2]; [|cbn; discriminate].
    destruct (contains "model" (lower b)); [cbn; discriminate|].
    destruct (execute_command env' _ 60 s2) as [[[[a' b'] c']|e] s3]; cbn; discriminate.
Qed.

(** C3: [start_training] either returns a job id whose registry record was
    persisted, so that [_load_job_info] returns the saved record and
    [check_training_status] on that id never reports [not_found], or it
    raises and no registry file is written or changed: every
    [_load_job_info] answers as before the call.  In particular, when the
    launch command returns a non-zero exit code, [start_training] raises
    [RuntimeError], issues no job id and leaves the local disk as it was
    ([_save_job_info] is not reached). *)
Theorem start_training_outcome (tc : TrainingConfig) (s : State)
  (Hfloat : float_ok (learning_rate tc) = true) :
  match start_training env gen tc s with
  | (Ok job_id, s') =>
      (exists workspace pid,
          _load_job_info job_id s' = (Ok (job_info_of job_id tc workspace pid), s'))
      /\ forall env',
           status_of_result (fst (check_training_status env' job_id s'))
           <> Some (JStr "not_found")
  | (Raise _, s') =>
      same_files (fs s) (fs s')
      /\ forall job_id, fst (_load_job_info job_id s') = fst (_load_job_info job_id s)
  end
  /\ match upload_training_files env gen tc s with
     | (Ok workspace, s1) =>
         match execute_command env (launch_cmd workspace) 60 s1 with
         | (Ok (rc, out, err), s2) =>
             if rc =? 0 then True
             else start_training env gen tc s
                  = (Raise (Exn RuntimeError ("Failed to start training: " +:+ err)), s2)
                  /\ fs s2 = fs s
         | (Raise _, _) => True
         end
     | (Raise _, _) => True
     end.
Proof.
  rewrite start_training_eq.
  pose proof (upload_training_files_fs tc s) as H1.
  destruct (upload_training_files env gen tc s) as [[workspace|e] s1]; cbn [snd] in H1.
  2:{ split; [|exact I]. split.
      - rewrite H1. apply same_files_refl.
      - intros j. apply load_same_files. rewrite H1. apply same_files_refl. }
  pose proof (execute_command_fs (launch_cmd workspace) 60 s1) as H2.
  destruct (execute_command env (launch_cmd workspace) 60 s1) as [[[[rc out] err]|e] s2];
    cbn [snd] in H2.
  2:{ split; [|exact I]. split.
      - rewrite H2, H1. apply same_files_refl.
      - intros j. apply load_same_files. rewrite H2, H1. apply same_files_refl. }
  destruct (rc =? 0); cbn [negb].
  - split; [|exact I]. cbv zeta.
    destruct (_save_job_info _ tc workspace (strip out) s2) as [[[]|e] s3] eqn:Hsave.
    + pose proof (load_after_save _ _ _ _ _ _ Hfloat Hsave) as Hload. split.
      * exists workspace, (strip out). exact Hload.
      * intros env'. apply (known_job_not_not_found env' _ _ _ Hload). reflexivity.
    + pose proof (save_raise_same_files _ _ _ _ _ _ _ Hsave) as Hsf.
      rewrite H2, H1 in Hsf. split; [exact Hsf|].
      intros j. apply load_same_files. exact Hsf.
  - split.
    + split.
      * rewrite H2, H1. apply same_files_refl.
      * intros j. apply load_same_files. rewrite H2, H1. apply same_files_refl.
    + split; [reflexivity|congruence].
Qed.

End LaunchFacts.

Section OwnScript.
Import Text Json Py Fs Ssh.

(** With [SSHManager]'s own script generator, which raises [NameError],
    no launch gets as far as the launch command. *)
Lemma own_script_never_launches (env : Env) (tc : TrainingConfig) (s : State) :
  exists e s', start_training env _create_training_script tc s = (Raise e, s').
Proof.
  rewrite start_training_eq.
  unfold upload_training_files, try_except, bind, get, raise, lift, ret.
  destruct (execute_command env _ 60 s) as [[r1|e1] s1]; [|eauto].
  destruct (path_exists (fs s1) (path_of (role_file tc))); [|eauto].
  destruct (upload_file env _ _ false s1) as [[u|e2] s2]; [|eauto].
  cbn. eauto.
Qed.

End OwnScript.

Lemma start_training_outcome_witness :
  match Ssh.start_training Scenario.host_done Scenario.plain_script Scenario.demo_config
          Scenario.connected_state with
  | (Py.Ok job_id, s') =>
      (exists workspace pid,
          Ssh._load_job_info job_id s'
          = (Py.Ok (Ssh.job_info_of job_id Scenario.demo_config workspace pid), s'))
      /\ forall env',
           Ssh.status_of_result (fst (Ssh.check_training_status env' job_id s'))
           <> Some (Json.JStr "not_found")
  | (Py.Raise _, s') =>
      Ssh.same_files (Ssh.fs Scenario.connected_state) (Ssh.fs s')
      /\ forall job_id, fst (Ssh._load_job_info job_id s')
                        = fst (Ssh._load_job_info job_id Scenario.connected_state)
  end
  /\ match Ssh.upload_training_files Scenario.host_done Scenario.plain_script
             Scenario.demo_config Scenario.connected_state with
     | (Py.Ok workspace, s1) =>
         match Ssh.execute_command Scenario.host_done (Ssh.launch_cmd workspace) 60 s1 with
         | (Py.Ok (rc, out, err), s2) =>
             if rc =? 0 then True
             else Ssh.start_training Scenario.host_done Scenario.plain_script
                    Scenario.demo_config Scenario.connected_state
                  = (Py.Raise (Py.Exn Py.RuntimeError ("Failed to start training: " +:+ err)), s2)
                  /\ Ssh.fs s2 = Ssh.fs Scenario.connected_state
         | (Py.Raise _, _) => True
         end
     | (Py.Raise _, _) => True
     end.
Proof.
  apply (start_training_outcome Scenario.host_done Scenario.plain_script Scenario.demo_config
           Scenario.connected_state).
  vm_compute. reflexivity.
Defined.

(** * Further facts: the session guard and the status tracker *)

Section GuardFacts.
Import Text Json Py Fs Ssh.

(** X1: After a failed first [connect] the guard of [execute_command] no
    longer answers "not connected": the command is handed to the library
    on the client object left behind, while [upload_file] still stops at
    its own guard without any remote I/O. *)
Theorem failed_connect_bypasses_guard (env : Env) (s : State) (command l r : string)
  (tmo : Z) (b : bool)
  (Hfresh : ssh_client (self s) = None /\ scp_client (self s) = None)
  (Hav : ssh_available env = true)
  (Hfail : fst (connect env s) = Ok false) :
  execute_command env command tmo (snd (connect env s))
  = (lib_exec env (snd (connect env s)) command tmo,
     log_event (EvExec (next_obj s) command tmo) (snd (connect env s)))
  /\ upload_file env l r b (snd (connect env s))
     = (Raise (Exn ConnectionError "SCP client not connected"), snd (connect env s)).
Proof.
  destruct Hfresh as [Hc Hp].
  rewrite connect_cases in *. cbv zeta in *. rewrite Hav in *.
  destruct (truthy_opt (password (config (self s))) || truthy_opt (key_filename (config (self s)))).
  - destruct (lib_connect env _ _); [|discriminate Hfail].
    cbn [snd]. rewrite execute_command_eq, upload_file_eq. cbn. rewrite Hp.
    split; reflexivity.
  - cbn [snd]. rewrite execute_command_eq, upload_file_eq. cbn. rewrite Hp.
    split; reflexivity.
Qed.

Lemma failed_connect_bypasses_guard_witness :
  execute_command Scenario.host_refusing "ls" 60
    (snd (connect Scenario.host_refusing Scenario.fresh_state))
  = (lib_exec Scenario.host_refusing
       (snd (connect Scenario.host_refusing Scenario.fresh_state)) "ls" 60,
     log_event (EvExec (next_obj Scenario.fresh_state) "ls" 60)
       (snd (connect Scenario.host_refusing Scenario.fresh_state)))
  /\ upload_file Scenario.host_refusing "a" "b" false
       (snd (connect Scenario.host_refusing Scenario.fresh_state))
     = (Raise (Exn ConnectionError "SCP client not connected"),
        snd (connect Scenario.host_refusing Scenario.fresh_state)).
Proof.
  apply (failed_connect_bypasses_guard Scenario.host_refusing Scenario.fresh_state
           "ls" "a" "b" 60 false).
  - split; reflexivity.
  - reflexivity.
  - reflexivity.
Defined.

End GuardFacts.

Section TrackerMore.
Import Text Json Py Fs Ssh Notions.

Lemma execute_command_frame (env : Env) (command : string) (tmo : Z) (s : State) :
  self (snd (execute_command env command tmo s)) = self s
  /\ fs (snd (execute_command env command tmo s)) = fs s
  /\ next_obj (snd (execute_command env command tmo s)) = next_obj s.
Proof. rewrite execute_command_eq. destruct (ssh_client (self s)); repeat split. Qed.

Ltac pick_status :=
  cbn; first [ left; reflexivity | right; left; reflexivity
             | right; right; left; reflexivity | right; right; right; left; reflexivity
             | right; right; right; right; reflexivity ].

Ltac status_done :=
  eexists; eexists; split; [reflexivity|];
  split; [pick_status|split; first [reflexivity | congruence]].

Lemma check_status_shape (env : Env) (job_id : string) (s : State) :
  exists d s', check_training_status env job_id s = (Ok d, s')
               /\ known_status d /\ fs s' = fs s /\ self s' = self s.
Proof.
  unfold check_training_status, try_except, bind at 1. rewrite load_job_info_eq.
  set (info := match read_file (fs s) (job_file job_id) with
               | Ok text => match loads text with Some v => v | None => JNull end
               | Raise _ => JNull
               end).
  unfold known_status.
  destruct (truthy info); cbn [negb].
  2:{ cbn. status_done. }
  unfold bind at 1, lift at 1.
  destruct (getitem info "remote_workspace") as [workspace|e].
  2:{ cbn. status_done. }
  unfold bind at 1, lift at 1.
  destruct (getitem info "pid") as [pid|e].
  2:{ cbn. status_done. }
  unfold bind at 1.
  destruct (execute_command_frame env (probe_cmd pid) 60 s) as (A1 & A2 & _).
  fold (probe_cmd pid).
  destruct (execute_command env (probe_cmd pid) 60 s) as [[[[rc out] err]|e] s1];
    cbn [snd] in A1, A2.
  2:{ cbn. status_done. }
  destruct (contains "running" out).
  - unfold bind, ret.
    destruct (execute_command_frame env ("tail -20 " +:+ str workspace +:+ "/training.log")
                60 s1) as (B1 & B2 & _).
    destruct (execute_command env ("tail -20 " +:+ str workspace +:+ "/training.log") 60 s1)
      as [[[[a b] c]|e] s2]; cbn [snd fst] in *; status_done.
  - unfold bind at 1.
    destruct (execute_command_frame env ("ls -la " +:+ str workspace +:+ "/models/")
                60 s1) as (B1 & B2 & _).
    destruct (execute_command env ("ls -la " +:+ str workspace +:+ "/models/") 60 s1)
      as [[[[a b] c]|e] s2]; cbn [snd fst] in *.
    2:{ status_done. }
    destruct (contains "model" (lower b)).
    + cbn. status_done.
    + unfold bind, ret.
      destruct (execute_command_frame env ("tail -50 " +:+ str workspace +:+ "/training.log")
                  60 s2) as (C1 & C2 & _).
      destruct (execute_command env ("tail -50 " +:+ str workspace +:+ "/training.log") 60 s2)
        as [[[[a' b'] c']|e] s3]; cbn [snd fst] in *; status_done.
Qed.

(** X2: [check_training_status] never raises: whatever the registry holds and
    whatever the remote side does, it returns a dict whose [status] is one
    of the five status words; it leaves the local disk and the manager's
    session fields as they were. *)
Theorem check_status_total (env : Env) (job_id : string) (s : State) :
  (exists d, fst (check_training_status env job_id s) = Ok d /\ known_status d)
  /\ fs (snd (check_training_status env job_id s)) = fs s
  /\ self (snd (check_training_status env job_id s)) = self s.
Proof.
  destruct (check_status_shape env job_id s) as (d & s' & E & Hk & Hf & Hs).
  rewrite E. cbn [fst snd]. eauto.
Qed.

(** X3: [check_training_status] reports [not_found] exactly when
    [_load_job_info] returns a falsy value (no file, an unreadable or
    unparsable file, or a JSON value such as [null] or an empty object);
    it then runs no remote command and changes nothing, connected or
    not. *)
Theorem not_found_iff_no_usable_record (env : Env) (job_id : string) (s : State) :
  match fst (_load_job_info job_id s) with
  | Ok info =>
      if truthy info
      then status_of_result (fst (check_training_status env job_id s))
           <> Some (JStr "not_found")
      else check_training_status env job_id s
           = (Ok (JObj (("status", JStr "not_found") :: ("error", JStr "Job not found") :: nil)),
              s)
  | Raise _ => False
  end.
Proof.
  pose proof (load_job_info_eq job_id s) as Hl.
  destruct (_load_job_info job_id s) as [r s'] eqn:E. inversion Hl; subst r s'.
  cbn [fst].
  set (info := match read_file (fs s) (job_file job_id) with
               | Ok text => match loads text with Some v => v | None => JNull end
               | Raise _ => JNull
               end) in *.
  destruct (truthy info) eqn:Ht.
  - exact (known_job_not_not_found env job_id info s E Ht).
  - unfold check_training_status, try_except, bind. rewrite E, Ht. reflexivity.
Qed.

(** X4: A record from which [remote_workspace] or [pid] cannot be read (the
    entry is missing, or the record is not an object), or a manager
    without a session, gives status [error] carrying the text of the
    exception (the quoted key, the type error, or "SSH client not
    connected"), with no remote command run and nothing changed; with
    both entries and a client at least one remote command is run. *)
Theorem unusable_record_or_session_is_error (env : Env) (job_id : string) (s : State)
  (info : json)
  (Hrecord : _load_job_info job_id s = (Ok info, s) /\ truthy info = true) :
  match getitem info "remote_workspace", getitem info "pid", ssh_client (self s) with
  | Raise e, _, _ => check_training_status env job_id s = (Ok (error_dict e), s)
  | Ok _, Raise e, _ => check_training_status env job_id s = (Ok (error_dict e), s)
  | Ok _, Ok _, None =>
      check_training_status env job_id s
      = (Ok (error_dict (Exn ConnectionError "SSH client not connected")), s)
  | Ok _, Ok _, Some _ =>
      exists d s', check_training_status env job_id s = (Ok d, s')
                   /\ trace s' <> trace s
  end.
Proof.
  destruct Hrecord as [Hl Ht].
  remember (check_training_status env job_id s) as R eqn:HR.
  unfold check_training_status, try_except, bind at 1 in HR. rewrite Hl, Ht in HR.
  cbn [negb] in HR. unfold bind at 1, lift at 1 in HR.
  destruct (getitem info "remote_workspace") as [workspace|e]; [|exact HR].
  unfold bind at 1, lift at 1 in HR.
  destruct (getitem info "pid") as [pid|e]; [|exact HR].
  unfold bind at 1 in HR. rewrite execute_command_eq in HR.
  destruct (ssh_client (self s)) as [c|]; [|exact HR].
  fold (probe_cmd pid) in HR. subst R.
  assert (Hgrow : forall (s0 s1 : State) r cmd,
             execute_command env cmd 60 s0 = (r, s1) ->
             exists l, trace s1 = (trace s0 ++ l)%list).
  { intros s0 s1 r cmd. rewrite execute_command_eq.
    destruct (ssh_client (self s0)); intros E; inversion E; subst.
    - eexists; reflexivity.
    - exists nil. rewrite app_nil_r. reflexivity. }
  assert (Hne : forall l, ((trace s ++ EvExec c (probe_cmd pid) 60 :: nil) ++ l)%list <> trace s).
  { intros l Heq. apply (f_equal (@List.length _)) in Heq.
    rewrite !length_app in Heq. cbn in Heq. lia. }
  set (s1 := log_event (EvExec c (probe_cmd pid) 60) s).
  assert (Hs1 : trace s1 = (trace s ++ EvExec c (probe_cmd pid) 60 :: nil)%list) by reflexivity.
  destruct (lib_exec env s (probe_cmd pid) 60) as [[[rc out] err]|e].
  2:{ eexists; eexists; split; [reflexivity|]. rewrite Hs1.
      specialize (Hne nil). rewrite app_nil_r in Hne. exact Hne. }
  destruct (contains "running" out).
  - unfold bind, ret.
    destruct (execute_command env ("tail -20 " +:+ str workspace +:+ "/training.log") 60 s1)
      as [[[[a b] c0]|e] s2] eqn:E2;
      destruct (Hgrow _ _ _ _ E2) as [l Hl2];
      (eexists; eexists; split; [reflexivity|rewrite Hl2, Hs1; apply Hne]).
  - unfold bind at 1.
    destruct (execute_command env ("ls -la " +:+ str workspace +:+ "/models/") 60 s1)
      as [[[[a b] c0]|e] s2] eqn:E2; destruct (Hgrow _ _ _ _ E2) as [l Hl2].
    2:{ eexists; eexists; split; [reflexivity|rewrite Hl2, Hs1; apply Hne]. }
    destruct (contains "model" (lower b)).
    + eexists; eexists; split; [reflexivity|rewrite Hl2, Hs1; apply Hne].
    + unfold bind, ret.
      destruct (execute_command env ("tail -50 " +:+ str workspace +:+ "/training.log") 60 s2)
        as [[[[a' b'] c']|e] s3] eqn:E3; destruct (Hgrow _ _ _ _ E3) as [l3 Hl3];
        (eexists; eexists; split; [reflexivity|]);
        rewrite Hl3, Hl2, Hs1, <- app_assoc; apply Hne.
Qed.

Lemma unusable_record_or_session_is_error_witness :
  check_training_status Scenario.host_done "j7" Cases.partial_state
  = (Ok (error_dict (Exn KeyError "'pid'")), Cases.partial_state).
Proof.
  apply (unusable_record_or_session_is_error Scenario.host_done "j7" Cases.partial_state
           Cases.partial_record).
  split; [vm_compute; reflexivity | reflexivity].
Defined.

Lemma disconnect_frame (s : State) :
  ssh_client (self (snd (disconnect s))) = None /\ fs (snd (disconnect s)) = fs s.
Proof. destruct s as [[cfg0 [c|] [p|]] f0 t0 n0]; cbn; split; reflexivity. Qed.

(** X5: After [disconnect], the status of a job with a complete record can no
    longer be read: [check_training_status] answers status [error] with
    the text "SSH client not connected", whatever the remote job is
    doing, and runs no remote command. *)
Theorem status_poll_after_disconnect (env : Env) (job_id : string) (s : State)
  (info workspace pid : json)
  (Hrecord : _load_job_info job_id s = (Ok info, s) /\ truthy info = true)
  (Hfields : getitem info "remote_workspace" = Ok workspace /\ getitem info "pid" = Ok pid) :
  check_training_status env job_id (snd (disconnect s))
  = (Ok (error_dict (Exn ConnectionError "SSH client not connected")), snd (disconnect s)).
Proof.
  destruct Hrecord as [Hl Ht]. destruct Hfields as [Hw Hp].
  destruct (disconnect_frame s) as [Hc Hf].
  assert (Hl' : _load_job_info job_id (snd (disconnect s)) = (Ok info, snd (disconnect s))).
  { rewrite load_job_info_eq in *. rewrite Hf. congruence. }
  unfold check_training_status, try_except, bind at 1. rewrite Hl', Ht.
  cbn [negb]. unfold bind at 1, lift at 1. rewrite Hw.
  unfold bind at 1, lift at 1. rewrite Hp.
  unfold bind at 1. rewrite execute_command_eq, Hc. reflexivity.
Qed.

Lemma status_poll_after_disconnect_witness :
  check_training_status Scenario.host_running "remote_m1_4242"
    (snd (disconnect Scenario.tracked_state))
  = (Ok (error_dict (Exn ConnectionError "SSH client not connected")),
     snd (disconnect Scenario.tracked_state)).
Proof.
  apply (status_poll_after_disconnect Scenario.host_running "remote_m1_4242"
           Scenario.tracked_state Scenario.demo_record
           (JStr "/root/workspace/m1") (JStr "4242")).
  - split; [vm_compute; reflexivity | reflexivity].
  - split; reflexivity.
Defined.

End TrackerMore.

(** * Further facts: the registry files *)

Section RegistryMore.
Import Text Json Py Fs Ssh Notions.

Lemma contains_slash_cons (c : ascii) (s : string) :
  contains "/" (String c s) = false -> Ascii.eqb c "/" = false /\ contains "/" s = false.
Proof.
  cbn [contains starts_with]. rewrite Ascii.eqb_sym.
  destruct (Ascii.eqb c "/"); [|auto].
  destruct s; discriminate.
Qed.

Lemma contains_slash_json (s : string) :
  contains "/" s = false -> contains "/" (s +:+ ".json") = false.
Proof.
  induction s as [|c s IH]; intros H; [reflexivity|].
  destruct (contains_slash_cons c s H) as [Hc Hs].
  rewrite append_cons. cbn [contains starts_with]. rewrite Ascii.eqb_sym, Hc.
  apply IH, Hs.
Qed.

Lemma split_on_no_slash (s : string) :
  contains "/" s = false -> split_on "/" s = s :: nil.
Proof.
  induction s as [|c s IH]; intros H; [reflexivity|].
  destruct (contains_slash_cons c s H) as [Hc Hs].
  cbn [split_on]. rewrite Hc, (IH Hs). reflexivity.
Qed.

Lemma json_name_kept (s : string) : keep_part (s +:+ ".json") = true.
Proof.
  unfold keep_part. destruct s as [|c [|d s]]; try reflexivity.
  - rewrite append_cons, append_nil_l. cbn.
    destruct (Ascii.eqb c "."); reflexivity.
  - rewrite !append_cons. cbn. destruct (Ascii.eqb c "."); reflexivity.
Qed.

Lemma job_file_slash_free (job_id : string) :
  contains "/" job_id = false ->
  job_file job_id = {| root := ""; parts := "remote_jobs" :: (job_id +:+ ".json") :: nil |}.
Proof.
  intros H. unfold job_file, path_join.
  assert (Hp : path_of (job_id +:+ ".json")
               = {| root := ""; parts := (job_id +:+ ".json") :: nil |}).
  { unfold path_of. rewrite (split_on_no_slash _ (contains_slash_json _ H)).
    cbn [List.filter]. rewrite json_name_kept. f_equal.
    destruct job_id as [|c s]; [reflexivity|].
    destruct (contains_slash_cons c s H) as [Hc _].
    rewrite append_cons. cbn [starts_with]. rewrite Ascii.eqb_sym, Hc. reflexivity. }
  rewrite Hp. reflexivity.
Qed.

Lemma job_file_key (job_id : string) :
  contains "/" job_id = false ->
  path_str (job_file job_id) = record_key job_id
  /\ is_anchor (job_file job_id) = false
  /\ path_str (path_parent (job_file job_id)) = "remote_jobs"
  /\ is_anchor (path_parent (job_file job_id)) = false
  /\ is_anchor (path_parent (path_parent (job_file job_id))) = true.
Proof.
  intros H. rewrite (job_file_slash_free _ H). repeat split; reflexivity.
Qed.

Lemma json_suffix_inj (a b : string) : a +:+ ".json" = b +:+ ".json" -> a = b.
Proof.
  revert b. induction a as [|x a IH]; intros [|y b] H.
  - reflexivity.
  - apply (f_equal String.length) in H. rewrite !length_append in H.
    cbn [String.length] in H. lia.
  - apply (f_equal String.length) in H. rewrite !length_append in H.
    cbn [String.length] in H. lia.
  - rewrite !append_cons in H. inversion H. f_equal. apply IH. assumption.
Qed.

Lemma record_key_inj (a b : string) : record_key a = record_key b -> a = b.
Proof.
  unfold record_key. rewrite !append_cons, !append_nil_l. intros H.
  inversion H. apply json_suffix_inj. assumption.
Qed.

Lemma record_key_not_dir (a : string) : record_key a <> "remote_jobs".
Proof.
  unfold record_key. rewrite !append_cons, !append_nil_l. discriminate.
Qed.

(** What [_save_job_info] does for a job id without a slash. *)
Lemma save_slash_free_eq (job_id : string) (tc : TrainingConfig) (workspace pid : string)
  (s : State) :
  contains "/" job_id = false ->
  _save_job_info job_id tc workspace pid s =
    match fs s !! "remote_jobs" with
    | Some (File _) =>
        (Raise (Exn FileExistsError "[Errno 17] File exists: 'remote_jobs'"), s)
    | _ =>
        match fs s !! record_key job_id with
        | Some Dir =>
            (Raise (Exn IsADirectoryError
                      ("[Errno 21] Is a directory: " +:+ repr_str (record_key job_id))),
             set_fs (<["remote_jobs" := Dir]> (fs s)) s)
        | _ =>
            (Ok tt,
             set_fs (<[record_key job_id := File (dumps 2 (job_info_of job_id tc workspace pid))]>
                       (<["remote_jobs" := Dir]> (fs s))) s)
        end
    end.
Proof.
  intros H. destruct (job_file_key job_id H) as (Hk & Ha & Hpk & Hpa & Hppa).
  rewrite save_job_info_eq. unfold mkdir_exist_ok, write_file, is_dir.
  rewrite Hpa, Hpk, Ha, Hk, Hppa. cbn [orb].
  pose proof (record_key_not_dir job_id) as Hne.
  destruct (fs s !! "remote_jobs") as [[c|]|] eqn:Hrj.
  - reflexivity.
  - rewrite Hrj, (insert_id _ _ _ Hrj).
    destruct (fs s !! record_key job_id) as [[c|]|]; destruct s; reflexivity.
  - rewrite lookup_insert_eq.
    rewrite lookup_insert_ne by (intro E; apply Hne; symmetry; exact E).
    destruct (fs s !! record_key job_id) as [[c|]|]; reflexivity.
Qed.

(** X6: For a job id without a slash, [_save_job_info] succeeds unless
    [remote_jobs] is a file or the record path is a directory; on success
    the disk differs from the old one only in that [remote_jobs] is a
    directory and the record file holds the new record, replacing any
    earlier one. *)
Theorem save_succeeds_unless_blocked (job_id : string) (tc : TrainingConfig)
  (workspace pid : string) (s : State)
  (Hid : contains "/" job_id = false) :
  match fs s !! "remote_jobs", fs s !! record_key job_id with
  | Some (File _), _ =>
      _save_job_info job_id tc workspace pid s
      = (Raise (Exn FileExistsError "[Errno 17] File exists: 'remote_jobs'"), s)
  | _, Some Dir =>
      exists e s', _save_job_info job_id tc workspace pid s = (Raise e, s')
                   /\ exn_kind_of e = IsADirectoryError
  | _, _ =>
      exists s', _save_job_info job_id tc workspace pid s = (Ok tt, s')
        /\ fs s' !! "remote_jobs" = Some Dir
        /\ fs s' !! record_key job_id
           = Some (File (dumps 2 (job_info_of job_id tc workspace pid)))
        /\ forall k, k <> "remote_jobs" -> k <> record_key job_id -> fs s' !! k = fs s !! k
  end.
Proof.
  rewrite (save_slash_free_eq _ _ _ _ _ Hid).
  pose proof (record_key_not_dir job_id) as Hne.
  assert (Hgood : exists s',
    (Ok tt, set_fs (<[record_key job_id := File (dumps 2 (job_info_of job_id tc workspace pid))]>
                      (<["remote_jobs" := Dir]> (fs s))) s) = (Ok tt, s')
    /\ fs s' !! "remote_jobs" = Some Dir
    /\ fs s' !! record_key job_id
       = Some (File (dumps 2 (job_info_of job_id tc workspace pid)))
    /\ forall k, k <> "remote_jobs" -> k <> record_key job_id -> fs s' !! k = fs s !! k).
  { eexists. split; [reflexivity|]. cbn [fs set_fs]. split; [|split].
    - rewrite lookup_insert_ne by exact Hne. apply lookup_insert_eq.
    - apply lookup_insert_eq.
    - intros k H1 H2. rewrite !lookup_insert_ne by congruence. reflexivity. }
  destruct (fs s !! "remote_jobs") as [[c|]|];
    destruct (fs s !! record_key job_id) as [[c'|]|]; try exact Hgood; try reflexivity;
    eexists; eexists; split; reflexivity.
Qed.

Lemma save_succeeds_unless_blocked_witness :
  contains "/" "remote_m1_4242" = false
  /\ exists s', _save_job_info "remote_m1_4242" Scenario.demo_config "/root/workspace/m1" "4242"
                  Scenario.fresh_state = (Ok tt, s').
Proof.
  split; [reflexivity|].
  destruct (save_succeeds_unless_blocked "remote_m1_4242" Scenario.demo_config
              "/root/workspace/m1" "4242" Scenario.fresh_state eq_refl) as (s' & H & _).
  exists s'. exact H.
Defined.

(** X7: Saving the record of one job never changes what [_load_job_info]
    returns for another job (ids without a slash), whether the save
    succeeds or raises. *)
Theorem save_keeps_other_records (id1 id2 : string) (tc : TrainingConfig)
  (workspace pid : string) (s : State)
  (Hids : contains "/" id1 = false /\ contains "/" id2 = false)
  (Hne : id1 <> id2) :
  fst (_load_job_info id2 (snd (_save_job_info id1 tc workspace pid s)))
  = fst (_load_job_info id2 s).
Proof.
  destruct Hids as [H1 H2].
  destruct (job_file_key id2 H2) as (Hk & Ha & _).
  assert (Hkeys : record_key id1 <> record_key id2)
    by (intro E; apply Hne, record_key_inj, E).
  pose proof (record_key_not_dir id2) as Hd.
  assert (Hsame : fs (snd (_save_job_info id1 tc workspace pid s)) !! record_key id2
                  = fs s !! record_key id2).
  { rewrite (save_slash_free_eq _ _ _ _ _ H1).
    destruct (fs s !! "remote_jobs") as [[c|]|];
      destruct (fs s !! record_key id1) as [[c'|]|]; cbn [snd fs set_fs];
      rewrite ?lookup_insert_ne by congruence; reflexivity. }
  rewrite !load_job_info_eq. cbn [fst]. unfold read_file. rewrite Ha, Hk, Hsame. reflexivity.
Qed.

Lemma save_keeps_other_records_witness :
  fst (_load_job_info "remote_m1_4242"
         (snd (_save_job_info "j7" Scenario.demo_config "/root/workspace/m1" "77"
                 Scenario.tracked_state)))
  = fst (_load_job_info "remote_m1_4242" Scenario.tracked_state).
Proof.
  apply (save_keeps_other_records "j7" "remote_m1_4242" Scenario.demo_config
           "/root/workspace/m1" "77" Scenario.tracked_state).
  - split; reflexivity.
  - intros H. discriminate H.
Defined.

End RegistryMore.

(** * Further facts: launching with the manager's own script generator *)

Section OwnLaunch.
Import Text Json Py Fs Ssh.

(** X8: With [SSHManager]'s own [_create_training_script], [start_training]
    never returns a job id.  It stops at the first failure among: no
    session, the [mkdir -p] command raising, a missing role file, the role
    upload failing; and when all of these succeed it raises the
    [NameError] of the script generator.  At most two remote operations
    happen (the [mkdir -p] and the role upload): no script is uploaded, no
    launch command is run, and the local disk is never changed. *)
Theorem own_script_launch_outcome (env : Env) (tc : TrainingConfig) (s : State) :
  let workspace := remote_workspace tc +:+ "/" +:+ model_id tc in
  let mk := "mkdir -p " +:+ workspace in
  let role := path_str (path_of (role_file tc)) in
  start_training env _create_training_script tc s =
    match ssh_client (self s) with
    | None => (Raise (Exn ConnectionError "SSH client not connected"), s)
    | Some c =>
        match lib_exec env s mk 60 with
        | Raise e => (Raise e, log_event (EvExec c mk 60) s)
        | Ok _ =>
            if path_exists (fs s) (path_of (role_file tc)) then
              match scp_client (self s) with
              | None => (Raise (Exn ConnectionError "SCP client not connected"),
                         log_event (EvExec c mk 60) s)
              | Some p =>
                  (match lib_put env (log_event (EvExec c mk 60) s) role
                           (workspace +:+ "/role.json") false with
                   | Some e => Raise e
                   | None => Raise (Exn NameError "name 'config' is not defined")
                   end,
                   log_event (EvPut p role (workspace +:+ "/role.json") false)
                     (log_event (EvExec c mk 60) s))
              end
            else (Raise (Exn FileNotFoundError ("Role file not found: " +:+ role)),
                  log_event (EvExec c mk 60) s)
        end
    end.
Proof.
  cbv zeta. rewrite start_training_eq.
  unfold upload_training_files, try_except, bind at 1.
  rewrite execute_command_eq.
  destruct (ssh_client (self s)) as [c|]; [|reflexivity].
  destruct (lib_exec env s _ 60) as [res|e]; [|reflexivity].
  unfold bind at 1, get. cbn [fs log_event].
  destruct (path_exists (fs s) (path_of (role_file tc))); [|reflexivity].
  unfold bind at 1. rewrite upload_file_eq. cbn [self log_event].
  destruct (scp_client (self s)) as [p|]; [|reflexivity].
  destruct (lib_put env _ _ _ false) as [e|]; reflexivity.
Qed.

End OwnLaunch.

(** * Further facts: retrieving the artifacts *)

Section RetrievalFacts.
Import Text Json Py Fs Ssh Retrieval.

(** [f'] is [f] with some directories added. *)
Lemma adds_dirs_refl (f : gmap string node) : adds_dirs f f.
Proof. intros k. left. reflexivity. Qed.

Lemma adds_dirs_trans (f g h : gmap string node) :
  adds_dirs f g -> adds_dirs g h -> adds_dirs f h.
Proof.
  intros H1 H2 k. destruct (H1 k) as [E1|[E1 E1']], (H2 k) as [E2|[E2 E2']].
  - left. congruence.
  - right. split; congruence.
  - right. split; congruence.
  - congruence.
Qed.

Lemma adds_dirs_insert (f : gmap string node) (k : string) :
  f !! k = None -> adds_dirs f (<[k := Dir]> f).
Proof.
  intros H j. destruct (decide (k = j)) as [E|E].
  - subst j. right. split; [exact H|apply lookup_insert_eq].
  - left. apply lookup_insert_ne, E.
Qed.

Lemma os_mkdir_ok (f f' : gmap string node) (p : Path) :
  os_mkdir f p = Ok f' -> is_dir f' p = true /\ adds_dirs f f'.
Proof.
  unfold os_mkdir. destruct (is_anchor p) eqn:Ha; [discriminate|].
  destruct (f !! path_str p) eqn:Hk; [discriminate|].
  destruct (is_dir f (path_parent p)); [|discriminate].
  intros E; inversion E; subst. split.
  - unfold is_dir. rewrite lookup_insert_eq. apply orb_true_r.
  - apply adds_dirs_insert, Hk.
Qed.

Lemma mkdir_exist_ok_ok (f f' : gmap string node) (p : Path) :
  mkdir_exist_ok f p = Ok f' -> is_dir f' p = true /\ adds_dirs f f'.
Proof.
  unfold mkdir_exist_ok, is_dir. destruct (is_anchor p) eqn:Ha.
  - intros E; inversion E; subst. split; [reflexivity|apply adds_dirs_refl].
  - destruct (f !! path_str p) as [[c|]|] eqn:Hk; try discriminate.
    + intros E; inversion E; subst. rewrite Hk. split; [reflexivity|apply adds_dirs_refl].
    + destruct (is_anchor (path_parent p) || _); [|discriminate].
      intros E; inversion E; subst. rewrite lookup_insert_eq.
      split; [reflexivity|apply adds_dirs_insert, Hk].
Qed.

Lemma mkdir_parents_from_ok (depth : nat) :
  forall (f f' : gmap string node) (p : Path),
    mkdir_parents_from depth f p = Ok f' -> is_dir f' p = true /\ adds_dirs f f'.
Proof.
  induction depth as [|n IH]; intros f f' p; cbn [mkdir_parents_from].
  - destruct (os_mkdir f p) as [f1|e] eqn:Hm.
    + intros E; inversion E; subst. exact (os_mkdir_ok _ _ _ Hm).
    + destruct (is_file_not_found e); [discriminate|].
      destruct (is_dir f p) eqn:Hd; [|discriminate].
      intros E; inversion E; subst. split; [exact Hd|apply adds_dirs_refl].
  - destruct (os_mkdir f p) as [f1|e] eqn:Hm.
    + intros E; inversion E; subst. exact (os_mkdir_ok _ _ _ Hm).
    + destruct (is_file_not_found e).
      * destruct (is_anchor p); [discriminate|].
        destruct (mkdir_parents_from n f (path_parent p)) as [f1|e1] eqn:Hr; [|discriminate].
        intros E. destruct (IH _ _ _ Hr) as [_ H1].
        destruct (mkdir_exist_ok_ok _ _ _ E) as [H2 H3].
        split; [exact H2|exact (adds_dirs_trans _ _ _ H1 H3)].
      * destruct (is_dir f p) eqn:Hd; [|discriminate].
        intros E; inversion E; subst. split; [exact Hd|apply adds_dirs_refl].
Qed.

(** When [mkdir(parents=True, exist_ok=True)] returns, the path is a
    directory, and the disk is the old one with directories added: no
    file is created, changed or removed and no entry changes its kind. *)
Lemma mkdir_parents_only_adds_dirs (f f' : gmap string node) (p : Path)
  (Hok : mkdir_parents f p = Ok f') :
  is_dir f' p = true /\ adds_dirs f f'.
Proof. exact (mkdir_parents_from_ok _ _ _ _ Hok). Qed.

Section WithGet.

Variable env : Env.
Variable lib_get : State -> string -> string -> bool -> option exn * gmap string node.

Lemma download_file_eq (remote_path local_path : string) (recursive : bool) (s : State) :
  download_file lib_get remote_path local_path recursive s =
    match scp_client (self s) with
    | None => (Raise (Exn ConnectionError "SCP client not connected"), s)
    | Some _ =>
        (match fst (lib_get s remote_path local_path recursive) with
         | None => Ok tt
         | Some e => Raise e
         end,
         set_fs (snd (lib_get s remote_path local_path recursive)) s)
    end.
Proof.
  unfold download_file, bind, get, try_except, modify, ret, raise.
  destruct (scp_client (self s)); [|reflexivity].
  destruct (fst (lib_get s remote_path local_path recursive)); reflexivity.
Qed.

Lemma download_trained_model_eq (job_id local_path : string) (s : State) :
  download_trained_model env lib_get job_id local_path s =
    match _load_job_info job_id s with
    | (Raise _, s0) => (Ok false, s0)
    | (Ok info, s0) =>
        if truthy info then
          match getitem info "remote_workspace" with
          | Raise _ => (Ok false, s0)
          | Ok workspace =>
              match execute_command env (models_cmd workspace) 60 s0 with
              | (Raise _, s1) => (Ok false, s1)
              | (Ok (rc, _, _), s1) =>
                  if rc =? 0 then
                    match mkdir_parents (fs s1) (path_join (path_of local_path) job_id) with
                    | Raise _ => (Ok false, s1)
                    | Ok f =>
                        match download_file lib_get (str workspace +:+ "/models")
                                (path_str (path_join (path_of local_path) job_id)) true
                                (set_fs f s1) with
                        | (Ok _, s2) => (Ok true, s2)
                        | (Raise _, s2) => (Ok false, s2)
                        end
                    end
                  else (Ok false, s1)
              end
          end
        else (Ok false, s0)
    end.
Proof.
  unfold download_trained_model, try_except, bind at 1.
  destruct (_load_job_info job_id s) as [[info|e] s0]; [|reflexivity].
  unfold bind at 1. destruct (truthy info); cbn [negb]; [|reflexivity].
  unfold ret at 1. unfold bind at 1, lift at 1.
  destruct (getitem info "remote_workspace") as [workspace|e]; [|reflexivity].
  unfold bind at 1. fold (models_cmd workspace).
  destruct (execute_command env (models_cmd workspace) 60 s0) as [[[[rc out] err]|e] s1];
    [|reflexivity].
  unfold bind at 1. destruct (rc =? 0); cbn [negb]; [|reflexivity].
  unfold ret at 1. unfold bind at 1, get. unfold bind at 1, lift at 1.
  destruct (mkdir_parents (fs s1) _) as [f|e]; [|reflexivity].
  unfold bind at 1, modify at 1. unfold bind, ret.
  destruct (download_file lib_get _ _ true (set_fs f s1)) as [[u|e] s2]; reflexivity.
Qed.

(** X10: [download_trained_model] never raises.  Without a usable record it
    returns [False] with nothing done at all; when the record lacks
    [remote_workspace] or there is no session likewise; and when the
    listing of the remote [models] directory raises or ends with a
    non-zero exit code it returns [False] after that single command, with
    no local directory made and no download. *)
Theorem download_refused_early (job_id local_path : string) (s : State) :
  (exists b, fst (download_trained_model env lib_get job_id local_path s) = Ok b)
  /\ match fst (_load_job_info job_id s) with
     | Ok info =>
         if truthy info then
           match getitem info "remote_workspace" with
           | Raise _ => download_trained_model env lib_get job_id local_path s = (Ok false, s)
           | Ok workspace =>
               match ssh_client (self s) with
               | None =>
                   download_trained_model env lib_get job_id local_path s = (Ok false, s)
               | Some c =>
                   match lib_exec env s (models_cmd workspace) 60 with
                   | Raise _ =>
                       download_trained_model env lib_get job_id local_path s
                       = (Ok false, log_event (EvExec c (models_cmd workspace) 60) s)
                   | Ok (rc, _, _) =>
                       if rc =? 0 then True
                       else download_trained_model env lib_get job_id local_path s
                            = (Ok false, log_event (EvExec c (models_cmd workspace) 60) s)
                   end
               end
           end
         else download_trained_model env lib_get job_id local_path s = (Ok false, s)
     | Raise _ => False
     end.
Proof.
  rewrite download_trained_model_eq, load_job_info_eq. cbn [fst].
  set (info := match read_file (fs s) (job_file job_id) with
               | Ok text => match loads text with Some v => v | None => JNull end
               | Raise _ => JNull
               end).
  destruct (truthy info); [|split; [eexists; reflexivity|reflexivity]].
  destruct (getitem info "remote_workspace") as [workspace|e];
    [|split; [eexists; reflexivity|reflexivity]].
  rewrite execute_command_eq.
  destruct (ssh_client (self s)) as [c|]; [|split; [eexists; reflexivity|reflexivity]].
  destruct (lib_exec env s (models_cmd workspace) 60) as [[[rc out] err]|e];
    [|split; [eexists; reflexivity|reflexivity]].
  destruct (rc =? 0); [|split; [eexists; reflexivity|reflexivity]].
  split; [|exact I].
  destruct (mkdir_parents _ _) as [f|e]; [|eexists; reflexivity].
  destruct (download_file lib_get _ _ true _) as [[u|e] s2]; eexists; reflexivity.
Qed.

(** X11: When [download_trained_model] returns [True]: the job has a usable
    record, the listing of the remote [models] directory ended with exit
    code 0, the local directory [local_path/job_id] is a directory on the
    disk handed to the library, the library's recursive download from
    [models] into that directory did not raise, and the final disk is the
    one the library left. *)
Theorem download_true_means (job_id local_path : string) (s : State)
  (Htrue : fst (download_trained_model env lib_get job_id local_path s) = Ok true) :
  exists info workspace c out err f,
    _load_job_info job_id s = (Ok info, s) /\ truthy info = true
    /\ getitem info "remote_workspace" = Ok workspace
    /\ ssh_client (self s) = Some c
    /\ lib_exec env s (models_cmd workspace) 60 = Ok (0, out, err)
    /\ mkdir_parents (fs s) (path_join (path_of local_path) job_id) = Ok f
    /\ is_dir f (path_join (path_of local_path) job_id) = true
    /\ let s2 := set_fs f (log_event (EvExec c (models_cmd workspace) 60) s) in
       let g := lib_get s2 (str workspace +:+ "/models")
                  (path_str (path_join (path_of local_path) job_id)) true in
       fst g = None
       /\ fs (snd (download_trained_model env lib_get job_id local_path s)) = snd g.
Proof.
  rewrite download_trained_model_eq in *.
  pose proof (load_job_info_eq job_id s) as Hl.
  destruct (_load_job_info job_id s) as [[info|e] s0]; [|discriminate Htrue].
  assert (s0 = s) by congruence. subst s0.
  destruct (truthy info) eqn:Ht; [|discriminate Htrue].
  destruct (getitem info "remote_workspace") as [workspace|e] eqn:Hw; [|discriminate Htrue].
  rewrite execute_command_eq in *.
  destruct (ssh_client (self s)) as [c|] eqn:Hc; [|discriminate Htrue].
  destruct (lib_exec env s (models_cmd workspace) 60) as [[[rc out] err]|e] eqn:Hx;
    [|discriminate Htrue].
  destruct (rc =? 0) eqn:Hrc; [|discriminate Htrue].
  apply Z.eqb_eq in Hrc. subst rc. cbn [fs log_event] in *.
  destruct (mkdir_parents (fs s) _) as [f|e] eqn:Hm; [|discriminate Htrue].
  rewrite download_file_eq in *. cbn [self set_fs log_event] in *.
  destruct (scp_client (self s)) as [p|]; [|discriminate Htrue].
  destruct (mkdir_parents_from_ok _ _ _ _ Hm) as [Hd _].
  exists info, workspace, c, out, err, f. cbv zeta.
  destruct (fst (lib_get _ _ _ true)) eqn:Hg; [discriminate Htrue|].
  repeat split; try reflexivity; try assumption.
Qed.

(** X9: Whatever its outcome, the only changes [download_trained_model]
    itself makes to the local disk are added directories (the target
    directory and its missing parents): either the final disk is the old
    one with directories added, or it is what the library's download left
    when handed such a disk.  In particular no local file is removed or
    rewritten by the method's own code, also when it returns [False]. *)
Theorem download_local_changes (job_id local_path : string) (s : State) :
  adds_dirs (fs s) (fs (snd (download_trained_model env lib_get job_id local_path s)))
  \/ exists f workspace c,
       adds_dirs (fs s) f
       /\ is_dir f (path_join (path_of local_path) job_id) = true
       /\ fs (snd (download_trained_model env lib_get job_id local_path s))
          = snd (lib_get (set_fs f (log_event (EvExec c (models_cmd workspace) 60) s))
                   (str workspace +:+ "/models")
                   (path_str (path_join (path_of local_path) job_id)) true).
Proof.
  rewrite download_trained_model_eq, load_job_info_eq.
  set (info := match read_file (fs s) (job_file job_id) with
               | Ok text => match loads text with Some v => v | None => JNull end
               | Raise _ => JNull
               end).
  destruct (truthy info); [|left; apply adds_dirs_refl].
  destruct (getitem info "remote_workspace") as [workspace|e]; [|left; apply adds_dirs_refl].
  rewrite execute_command_eq.
  destruct (ssh_client (self s)) as [c|]; [|left; apply adds_dirs_refl].
  destruct (lib_exec env s (models_cmd workspace) 60) as [[[rc out] err]|e];
    [|left; apply adds_dirs_refl].
  destruct (rc =? 0); [|left; apply adds_dirs_refl].
  cbn [fs log_event].
  destruct (mkdir_parents (fs s) (path_join (path_of local_path) job_id)) as [f|e] eqn:Hm;
    [|left; apply adds_dirs_refl].
  destruct (mkdir_parents_from_ok _ _ _ _ Hm) as [Hd Ha].
  rewrite download_file_eq. cbn [self set_fs log_event].
  destruct (scp_client (self s)) as [p|].
  - right. exists f, workspace, c. split; [exact Ha|]. split; [exact Hd|].
    destruct (fst (lib_get _ _ _ true)); reflexivity.
  - left. exact Ha.
Qed.

End WithGet.

Lemma download_true_means_witness :
  fst (download_trained_model Scenario.host_done Cases.get_weights "remote_m1_4242" "downloads"
         Scenario.tracked_state) = Ok true
  /\ exists f, mkdir_parents (fs Scenario.tracked_state)
                 (path_join (path_of "downloads") "remote_m1_4242") = Ok f
               /\ is_dir f (path_join (path_of "downloads") "remote_m1_4242") = true.
Proof.
  assert (H : fst (download_trained_model Scenario.host_done Cases.get_weights "remote_m1_4242"
                     "downloads" Scenario.tracked_state) = Ok true) by (vm_compute; reflexivity).
  split; [exact H|].
  destruct (download_true_means Scenario.host_done Cases.get_weights "remote_m1_4242" "downloads"
              Scenario.tracked_state H)
    as (info & workspace & c & out & err & f & _ & _ & _ & _ & _ & Hm & Hd & _).
  exists f. split; assumption.
Defined.

End RetrievalFacts.

(** * Further facts: the Autodl manager, the process-wide manager and the
      connectivity endpoint *)

Section AutodlFacts.
Import Text Json Py Fs Ssh Autodl Api.

(** X12: A manager configured as [AutodlSSHManager] builds it never
    authenticates with a password: with a key file name its [connect]
    makes exactly one connection attempt, by key; without one (or with an
    empty name) it returns [False] without any attempt. *)
Theorem autodl_connect_uses_key (env : Env) (s : State) (host user : string)
  (key : option string)
  (Hcfg : config (self s) = config (AutodlSSHManager host user key))
  (Hav : ssh_available env = true) :
  if truthy_opt key
  then trace (snd (connect env s)) = (trace s ++ EvConnect (next_obj s) false :: nil)%list
  else fst (connect env s) = Ok false /\ trace (snd (connect env s)) = trace s.
Proof.
  rewrite connect_cases. cbv zeta. rewrite Hav, Hcfg. cbn [config AutodlSSHManager new_manager
    password key_filename truthy_opt orb].
  destruct (truthy_opt key).
  - destruct (lib_connect env _ false); reflexivity.
  - split; reflexivity.
Qed.

Lemma autodl_connect_uses_key_witness :
  trace (snd (connect Scenario.host_done Scenario.fresh_state))
  = EvConnect 0 false :: nil.
Proof.
  apply (autodl_connect_uses_key Scenario.host_done Scenario.fresh_state
           "gpu.example.org" "root" (Some "/root/.ssh/id_rsa")).
  - reflexivity.
  - reflexivity.
Defined.

(** X13: [setup_environment] on a manager without a session raises
    [ConnectionError] before anything is run.  With a session it runs the
    three setup commands in order; an exit code never stops it, so a
    failed [pip install] is still followed by both [mkdir -p] commands;
    only an exception of a command ends it early. *)
Theorem setup_runs_every_command (env : Env) (s : State) :
  match ssh_client (self s) with
  | None =>
      setup_environment env s = (Raise (Exn ConnectionError "SSH client not connected"), s)
  | Some c =>
      let c1 := "pip install transformers torch peft datasets accelerate" in
      let c2 := "mkdir -p /root/workspace" in
      let c3 := "mkdir -p /root/models" in
      let s1 := log_event (EvExec c c1 60) s in
      let s2 := log_event (EvExec c c2 60) s1 in
      let s3 := log_event (EvExec c c3 60) s2 in
      setup_environment env s =
        match lib_exec env s c1 60 with
        | Raise e => (Raise e, s1)
        | Ok _ =>
            match lib_exec env s1 c2 60 with
            | Raise e => (Raise e, s2)
            | Ok _ =>
                match lib_exec env s2 c3 60 with
                | Raise e => (Raise e, s3)
                | Ok _ => (Ok tt, s3)
                end
            end
        end
  end.
Proof.
  destruct (ssh_client (self s)) as [c|] eqn:Hc.
  - cbv zeta. unfold setup_environment, setup_commands. cbn [run_commands].
    unfold bind at 1. rewrite execute_command_eq, Hc.
    cbv zeta. destruct (lib_exec env s _ 60) as [r1|e]; [|reflexivity].
    unfold bind at 1. rewrite execute_command_eq. cbn [self log_event]. rewrite Hc.
    cbv zeta. destruct (lib_exec env _ _ 60) as [r2|e]; [|reflexivity].
    unfold bind at 1. rewrite execute_command_eq. cbn [self log_event]. rewrite Hc.
    cbv zeta. destruct (lib_exec env _ _ 60) as [r3|e]; reflexivity.
  - unfold setup_environment, setup_commands. cbn [run_commands].
    unfold bind at 1. rewrite execute_command_eq, Hc. reflexivity.
Qed.

(** X14: Once [get_ssh_manager] has returned a manager, every later call
    returns that same manager and changes nothing, whatever the
    environment variables have become and whether or not the SSH library
    is still available. *)
Theorem get_ssh_manager_caches (env env' : Env) (p p1 : Process) (m : SSHManager)
  (environ' : gmap string string)
  (Hfirst : get_ssh_manager env p = (Some m, p1)) :
  get_ssh_manager env' (set_environ environ' p1) = (Some m, set_environ environ' p1).
Proof.
  unfold get_ssh_manager in *.
  destruct (_ssh_manager p) as [m0|] eqn:Hm.
  - inversion Hfirst; subst. cbn [_ssh_manager set_environ]. rewrite Hm. reflexivity.
  - destruct (environ p !! "SSH_HOSTNAME") as [h|]; [|discriminate].
    destruct (negb (truthy_opt (Some h))); [discriminate|].
    destruct (negb (ssh_available env)); [discriminate|].
    inversion Hfirst; subst. reflexivity.
Qed.

Lemma get_ssh_manager_caches_witness :
  get_ssh_manager Scenario.host_refusing
    (set_environ ∅ (snd (get_ssh_manager Scenario.host_done Cases.server)))
  = (Some (AutodlSSHManager "gpu.example.org" "root" None),
     set_environ ∅ (snd (get_ssh_manager Scenario.host_done Cases.server))).
Proof.
  apply (get_ssh_manager_caches Scenario.host_done Scenario.host_refusing Cases.server).
  vm_compute. reflexivity.
Defined.

(** X15: A process without a manager whose [SSH_HOSTNAME] is unset or empty,
    or whose SSH library is missing, is inert: [get_ssh_manager] returns
    nothing and keeps nothing, [connect_ssh] returns [False] and
    [disconnect_ssh] returns, all without any I/O or change. *)
Theorem unconfigured_process_is_inert (env : Env) (p : Process)
  (Hnone : _ssh_manager p = None)
  (Hoff : truthy_opt (environ p !! "SSH_HOSTNAME") = false \/ ssh_available env = false) :
  get_ssh_manager env p = (None, p)
  /\ connect_ssh env p = (Ok false, p)
  /\ disconnect_ssh env p = (Ok tt, p).
Proof.
  assert (H : get_ssh_manager env p = (None, p)).
  { unfold get_ssh_manager. rewrite Hnone.
    destruct (environ p !! "SSH_HOSTNAME") as [h|]; [|reflexivity].
    destruct Hoff as [Hh|Ha].
    - rewrite Hh. reflexivity.
    - rewrite Ha. destruct (negb (truthy_opt (Some h))); reflexivity. }
  unfold connect_ssh, disconnect_ssh. rewrite H. auto.
Qed.

Lemma unconfigured_process_is_inert_witness :
  get_ssh_manager Scenario.host_done Cases.bare_server = (None, Cases.bare_server)
  /\ connect_ssh Scenario.host_done Cases.bare_server = (Ok false, Cases.bare_server)
  /\ disconnect_ssh Scenario.host_done Cases.bare_server = (Ok tt, Cases.bare_server).
Proof.
  apply (unconfigured_process_is_inert Scenario.host_done Cases.bare_server).
  - reflexivity.
  - left. reflexivity.
Defined.

Lemma connect_true_state (env : Env) (s s' : State) :
  connect env s = (Ok true, s') ->
  ssh_client (self s') = Some (next_obj s) /\ scp_client (self s') = Some (S (next_obj s))
  /\ config (self s') = config (self s) /\ fs s' = fs s
  /\ exists w, trace s' = (trace s ++ EvConnect (next_obj s) w :: nil)%list.
Proof.
  rewrite connect_cases. cbv zeta.
  destruct (ssh_available env); [|discriminate].
  destruct (truthy_opt (password (config (self s))) || truthy_opt (key_filename (config (self s))));
    [|discriminate].
  destruct (lib_connect env _ _); [discriminate|].
  intros E; inversion E; subst. cbn. repeat split; eauto.
Qed.

(** X16: When [ssh_status] answers [connected = True], the process-wide manager
    is left without a session: both client fields are null.  The events
    added are one connection attempt and the closing of the two clients
    made for it, so a session the manager held before the call is dropped
    without being closed.  The local disk is untouched and the answer
    names the manager's host. *)
Theorem ssh_status_leaves_no_session (env : Env) (imported : bool) (p : Process)
  (Hyes : connected (fst (ssh_status env imported p)) = true) :
  exists m',
    _ssh_manager (snd (ssh_status env imported p)) = Some m'
    /\ ssh_client m' = None /\ scp_client m' = None
    /\ resp_hostname (fst (ssh_status env imported p)) = Some (hostname (config m'))
    /\ disk (snd (ssh_status env imported p)) = disk p
    /\ exists w, events (snd (ssh_status env imported p))
                 = (events p ++ EvConnect (objects p) w :: EvCloseScp (S (objects p))
                               :: EvCloseSsh (objects p) :: nil)%list.
Proof.
  unfold ssh_status in *.
  destruct imported; cbn [negb] in *; [|discriminate Hyes].
  assert (Hsame : disk (snd (get_ssh_manager env p)) = disk p
                  /\ events (snd (get_ssh_manager env p)) = events p
                  /\ objects (snd (get_ssh_manager env p)) = objects p).
  { unfold get_ssh_manager. destruct (_ssh_manager p); [auto|].
    destruct (environ p !! "SSH_HOSTNAME"); [|auto].
    destruct (negb (truthy_opt _)); [auto|]. destruct (negb (ssh_available env)); auto. }
  destruct (get_ssh_manager env p) as [[m|] p1]; [|discriminate Hyes].
  cbn [snd] in Hsame. destruct Hsame as (Hdisk & Hev & Hobj).
  unfold on_manager in *.
  set (s0 := {| self := m; fs := disk p1; trace := events p1; next_obj := objects p1 |}) in *.
  destruct (connect env s0) as [[[|]|e] s1] eqn:Hconn; cbn [fst snd] in *;
    try discriminate Hyes.
  destruct (connect_true_state env s0 s1 Hconn) as (Hc & Hs & Hcfg & Hfs & w & Htr).
  destruct s1 as [[cfg1 c1 p1'] f1 t1 n1]. cbn in Hc, Hs, Hcfg, Hfs, Htr. subst.
  cbn. eexists. split; [reflexivity|]. split; [reflexivity|]. split; [reflexivity|].
  split; [reflexivity|]. split; [exact Hdisk|].
  exists w. rewrite <- Hev, <- Hobj, <- !app_assoc. reflexivity.
Qed.

Lemma ssh_status_leaves_no_session_witness :
  connected (fst (ssh_status Scenario.host_done true Cases.keyed_server)) = true
  /\ exists m',
       _ssh_manager (snd (ssh_status Scenario.host_done true Cases.keyed_server)) = Some m'
       /\ ssh_client m' = None /\ scp_client m' = None.
Proof.
  assert (H : connected (fst (ssh_status Scenario.host_done true Cases.keyed_server)) = true)
    by (vm_compute; reflexivity).
  split; [exact H|].
  destruct (ssh_status_leaves_no_session Scenario.host_done true Cases.keyed_server H)
    as (m' & H1 & H2 & H3 & _).
  exists m'. auto.
Defined.

End AutodlFacts.
